(** * Customer reconstruction from the relational store

    A shallow embedding of [Customer_Service/entities/customer.py] (the
    pydantic models and [Customer.get_customer]) and of the script
    [Customer_Service/setup_database.py] (the schema, the seed rows and the
    transaction that inserts them).

    Python's effects are kept explicit: a computation takes the frame state
    (the local [conn], what was printed, how many store calls were made) and
    gives back either a value or the exception it raised, together with the
    state reached.  The relational store is four lists of rows plus an oracle
    that says which store call, if any, raises [sqlite3.Error]; binding a
    parameter and decoding a fetched row raise by themselves, depending on
    the bytes of the text. *)

From Stdlib Require Import ZArith List String Ascii Bool Lia.
From Stdlib Require Import Strings.Byte Floats.SpecFloat.
Import ListNotations.
Set Warnings "-register-all".
Local Open Scope Z_scope.
Local Open Scope list_scope.

(** ** Values held by the store *)

(** A Python [float], as SQLite's REAL storage class holds it: an IEEE-754
    double. *)
Definition PyFloat : Type := spec_float.

(** The five storage classes of SQLite, as the [sqlite3] module hands them
    to Python: [None], [int], [float], [str], [bytes]. *)
Inductive SqlValue : Type :=
| SqlNull
| SqlInt (n : Z)
| SqlReal (x : PyFloat)
| SqlText (s : string)
| SqlBlob (b : list byte).

(** Python truth value of a fetched column: [bool(v)] and [if v:]. *)
Definition py_bool (v : SqlValue) : bool :=
  match v with
  | SqlNull => false
  | SqlInt n => negb (n =? 0)
  | SqlReal (S754_zero _) => false
  | SqlReal _ => true
  | SqlText s => negb (String.eqb s EmptyString)
  | SqlBlob [] => false
  | SqlBlob (_ :: _) => true
  end.

Definition byte_eqb (a b : byte) : bool := Byte.eqb a b.

Fixpoint bytes_eqb (a b : list byte) : bool :=
  match a, b with
  | [], [] => true
  | x :: a', y :: b' => byte_eqb x y && bytes_eqb a' b'
  | _, _ => false
  end.

(** The comparison [column = value] of the three WHERE/ON clauses.  The
    compared columns have TEXT or INTEGER affinity and the other side is a
    bound [str] or [int] or another TEXT column, so the only equalities that
    can hold are between two integers, two texts or two blobs; NULL equals
    nothing. *)
Definition sql_eq (a b : SqlValue) : bool :=
  match a, b with
  | SqlInt x, SqlInt y => x =? y
  | SqlText s, SqlText t => String.eqb s t
  | SqlBlob x, SqlBlob y => bytes_eqb x y
  | _, _ => false
  end.

(** ** Text

    A TEXT value of SQLite is any sequence of bytes.  A Python [str] is held
    here as the bytes of its UTF-8 encoding, and a surrogate code point, for
    which UTF-8 has no encoding, as the three bytes ED A0..BF 80..BF that
    the [surrogatepass] handler writes for it.  [Utf8.valid] says that the
    bytes are well-formed UTF-8 (RFC 3629: no overlong form, no surrogate,
    nothing above U+10FFFF): such a TEXT decodes to a [str], and a [str]
    held as such bytes has no surrogate and encodes. *)
Module Utf8.

Definition between (lo hi : N) (c : ascii) : bool :=
  ((lo <=? N_of_ascii c) && (N_of_ascii c <=? hi))%N.

Definition continuation (c : ascii) : bool := between 128 191 c.

(** The byte that may follow the first byte [a] of a three-byte sequence:
    A0..BF after E0 (no overlong form), 80..9F after ED (no surrogate). *)
Definition second_of_three (a b : ascii) : bool :=
  if between 224 224 a then between 160 191 b
  else if between 237 237 a then between 128 159 b
  else continuation b.

(** The byte that may follow the first byte [a] of a four-byte sequence:
    90..BF after F0, 80..8F after F4 (nothing above U+10FFFF). *)
Definition second_of_four (a b : ascii) : bool :=
  if between 240 240 a then between 144 191 b
  else if between 244 244 a then between 128 143 b
  else continuation b.

Fixpoint valid (s : string) : bool :=
  match s with
  | EmptyString => true
  | String a r =>
      if between 0 127 a then valid r
      else if between 194 223 a then
        match r with
        | String b r' => continuation b && valid r'
        | EmptyString => false
        end
      else if between 224 239 a then
        match r with
        | String b (String c r') =>
            second_of_three a b && continuation c && valid r'
        | _ => false
        end
      else if between 240 244 a then
        match r with
        | String b (String c (String d r')) =>
            second_of_four a b && continuation c && continuation d && valid r'
        | _ => false
        end
      else false
  end.

End Utf8.

(** ** The four tables ([setup_database.py], CREATE TABLE statements) *)

Module Schema.

(** [customers]: the columns in the order of the CREATE TABLE. *)
Record customer : Type := {
  customer_id : SqlValue;
  account_number : SqlValue;
  customer_first_name : SqlValue;
  customer_last_name : SqlValue;
  email : SqlValue;
  phone_number : SqlValue;
  customer_start_date : SqlValue;
  years_as_customer : SqlValue;
  billing_address_street : SqlValue;
  billing_address_city : SqlValue;
  billing_address_state : SqlValue;
  billing_address_zip : SqlValue;
  loyalty_points : SqlValue;
  preferred_store : SqlValue;
  comm_pref_email : SqlValue;
  comm_pref_sms : SqlValue;
  comm_pref_push : SqlValue;
  garden_type : SqlValue;
  garden_size : SqlValue;
  garden_sun_exposure : SqlValue;
  garden_soil_type : SqlValue;
  garden_interests : SqlValue;
  scheduled_appointments : SqlValue
}.

Record product : Type := {
  p_product_id : SqlValue;
  p_name : SqlValue
}.

Record purchase : Type := {
  purchase_id : Z;            (* INTEGER PRIMARY KEY: the rowid, always an integer *)
  pu_customer_id : SqlValue;
  date : SqlValue;
  total_amount : SqlValue
}.

Record purchase_item : Type := {
  purchase_item_id : Z;       (* INTEGER PRIMARY KEY *)
  pi_purchase_id : SqlValue;
  pi_product_id : SqlValue;
  pi_quantity : SqlValue
}.

(** A row of the join query of [get_customer]:
    [SELECT pi.product_id, pi.quantity, p.name]. *)
Record item : Type := {
  product_id : SqlValue;
  quantity : SqlValue;
  name : SqlValue
}.

(** The columns of a fetched row with their names, in the order in which
    the query returns them: the order of the CREATE TABLE for [SELECT *],
    the order of the select list for the join. *)
Definition customer_columns (r : customer) : list (string * SqlValue) :=
  [ ("customer_id"%string, customer_id r);
    ("account_number"%string, account_number r);
    ("customer_first_name"%string, customer_first_name r);
    ("customer_last_name"%string, customer_last_name r);
    ("email"%string, email r);
    ("phone_number"%string, phone_number r);
    ("customer_start_date"%string, customer_start_date r);
    ("years_as_customer"%string, years_as_customer r);
    ("billing_address_street"%string, billing_address_street r);
    ("billing_address_city"%string, billing_address_city r);
    ("billing_address_state"%string, billing_address_state r);
    ("billing_address_zip"%string, billing_address_zip r);
    ("loyalty_points"%string, loyalty_points r);
    ("preferred_store"%string, preferred_store r);
    ("comm_pref_email"%string, comm_pref_email r);
    ("comm_pref_sms"%string, comm_pref_sms r);
    ("comm_pref_push"%string, comm_pref_push r);
    ("garden_type"%string, garden_type r);
    ("garden_size"%string, garden_size r);
    ("garden_sun_exposure"%string, garden_sun_exposure r);
    ("garden_soil_type"%string, garden_soil_type r);
    ("garden_interests"%string, garden_interests r);
    ("scheduled_appointments"%string, scheduled_appointments r) ].

Definition purchase_columns (r : purchase) : list (string * SqlValue) :=
  [ ("purchase_id"%string, SqlInt (purchase_id r));
    ("customer_id"%string, pu_customer_id r);
    ("date"%string, date r);
    ("total_amount"%string, total_amount r) ].

Definition item_columns (i : item) : list (string * SqlValue) :=
  [ ("product_id"%string, product_id i);
    ("quantity"%string, quantity i);
    ("name"%string, name i) ].

End Schema.

(** The first TEXT column of a row that is not well-formed UTF-8, with its
    name: the column at which the [sqlite3] module, turning the row into
    Python values from left to right, fails to make a [str]. *)
Fixpoint undecodable (columns : list (string * SqlValue))
  : option (string * string) :=
  match columns with
  | [] => None
  | (column, SqlText s) :: rest =>
      if Utf8.valid s then undecodable rest else Some (column, s)
  | _ :: rest => undecodable rest
  end.

(** The relational store: the rows of each table in storage order, and
    [failure k], the message of the [sqlite3.Error] that the [k]-th store
    call of a fetch raises for a reason that lies outside the rows (the file
    cannot be opened, a table is missing, the database is locked); [None]
    when there is no such reason.  Call 0 is [sqlite3.connect]. *)
Record Store : Type := {
  customers : list Schema.customer;
  products : list Schema.product;
  purchases : list Schema.purchase;
  purchase_items : list Schema.purchase_item;
  failure : nat -> option string
}.

(** [SELECT * FROM customers WHERE customer_id = ?] *)
Definition select_customers (db : Store) (cid : string) : list Schema.customer :=
  filter (fun r => sql_eq (Schema.customer_id r) (SqlText cid)) (customers db).

(** [SELECT * FROM purchases WHERE customer_id = ?] *)
Definition select_purchases (db : Store) (cid : string) : list Schema.purchase :=
  filter (fun r => sql_eq (Schema.pu_customer_id r) (SqlText cid)) (purchases db).

(** [SELECT pi.product_id, pi.quantity, p.name FROM purchase_items pi
     JOIN products p ON pi.product_id = p.product_id
     WHERE pi.purchase_id = ?] *)
Definition select_items (db : Store) (pid : Z) : list Schema.item :=
  flat_map
    (fun pi =>
       map (fun p => {| Schema.product_id := Schema.pi_product_id pi;
                        Schema.quantity := Schema.pi_quantity pi;
                        Schema.name := Schema.p_name p |})
           (filter (fun p => sql_eq (Schema.pi_product_id pi) (Schema.p_product_id p))
                   (products db)))
    (filter (fun pi => sql_eq (Schema.pi_purchase_id pi) (SqlInt pid))
            (purchase_items db)).

(** ** [json.loads] on a [str]

    The decoder of Python's [json] module with its default settings, on the
    UTF-8 bytes of the text: the grammar of [json.scanner] and
    [json.decoder] (whitespace, the three literals, numbers, strings with
    their escapes, arrays, objects, and the constants [NaN], [Infinity],
    [-Infinity] that Python accepts).  [None] stands for
    [json.JSONDecodeError]. *)
Module Json.

Inductive value : Type :=
| JNull
| JBool (b : bool)
| JNumber (lexeme : string)
| JString (s : string)
| JArray (elems : list value)
| JObject (members : list (string * value)).

Definition code (c : ascii) : N := N_of_ascii c.

Definition is_ws (c : ascii) : bool :=
  ((code c =? 32) || (code c =? 9) || (code c =? 10) || (code c =? 13))%N.

Definition is_digit (c : ascii) : bool :=
  ((48 <=? code c) && (code c <=? 57))%N.

Definition hex_digit (c : ascii) : option N :=
  let n := code c in
  (if (48 <=? n) && (n <=? 57) then Some (n - 48)
   else if (65 <=? n) && (n <=? 70) then Some (n - 55)
   else if (97 <=? n) && (n <=? 102) then Some (n - 87)
   else None)%N.

Fixpoint skip_ws (s : string) : string :=
  match s with
  | String c s' => if is_ws c then skip_ws s' else s
  | EmptyString => s
  end.

Fixpoint strip_prefix (p s : string) : option string :=
  match p, s with
  | EmptyString, _ => Some s
  | String a p', String b s' => if Ascii.eqb a b then strip_prefix p' s' else None
  | String _ _, EmptyString => None
  end.

(** [chr(n)], as UTF-8 bytes. *)
Definition utf8 (n : N) : string :=
  let b (k : N) := ascii_of_N k in
  (if n <? 128 then String (b n) EmptyString
   else if n <? 2048 then
     String (b (192 + n / 64)) (String (b (128 + n mod 64)) EmptyString)
   else if n <? 65536 then
     String (b (224 + n / 4096))
       (String (b (128 + (n / 64) mod 64))
          (String (b (128 + n mod 64)) EmptyString))
   else
     String (b (240 + n / 262144))
       (String (b (128 + (n / 4096) mod 64))
          (String (b (128 + (n / 64) mod 64))
             (String (b (128 + n mod 64)) EmptyString))))%N.

(** The four hexadecimal digits of a [\uXXXX] escape. *)
Definition take_hex4 (s : string) : option (N * string) :=
  match s with
  | String a (String b (String c (String d rest))) =>
      match hex_digit a, hex_digit b, hex_digit c, hex_digit d with
      | Some x, Some y, Some z, Some w =>
          Some (((x * 16 + y) * 16 + z) * 16 + w, rest)%N
      | _, _, _, _ => None
      end
  | _ => None
  end.

(** The single-character escapes of [json.decoder.BACKSLASH]. *)
Definition simple_escape (c : ascii) : option ascii :=
  let n := code c in
  (if n =? 34 then Some (ascii_of_N 34)
   else if n =? 92 then Some (ascii_of_N 92)
   else if n =? 47 then Some (ascii_of_N 47)
   else if n =? 98 then Some (ascii_of_N 8)
   else if n =? 102 then Some (ascii_of_N 12)
   else if n =? 110 then Some (ascii_of_N 10)
   else if n =? 114 then Some (ascii_of_N 13)
   else if n =? 116 then Some (ascii_of_N 9)
   else None)%N.

Definition snoc (acc : string) (c : ascii) : string :=
  String.append acc (String c EmptyString).

(** The two characters that start a [\uXXXX] escape. *)
Definition backslash_u : string :=
  String (ascii_of_N 92) (String (ascii_of_N 117) EmptyString).

(** [scanstring] in strict mode, from just after the opening quote.  After
    the escape of a high surrogate, the escape of a low surrogate is joined
    with it into one character. *)
Fixpoint scan_string (fuel : nat) (s acc : string) : option (string * string) :=
  match fuel with
  | O => None
  | S fuel' =>
      match s with
      | EmptyString => None
      | String c s' =>
          let n := code c in
          if (n =? 34)%N then Some (acc, s')
          else if (n <? 32)%N then None
          else if (n =? 92)%N then
            match s' with
            | EmptyString => None
            | String e s'' =>
                if (code e =? 117)%N then
                  match take_hex4 s'' with
                  | None => None
                  | Some (u, r) =>
                      if ((55296 <=? u) && (u <=? 56319))%N then
                        match strip_prefix backslash_u r with
                        | None => scan_string fuel' r (String.append acc (utf8 u))
                        | Some r2 =>
                            match take_hex4 r2 with
                            | None => None
                            | Some (u2, r3) =>
                                if ((56320 <=? u2) && (u2 <=? 57343))%N then
                                  scan_string fuel' r3
                                    (String.append acc
                                       (utf8 (65536 + (u - 55296) * 1024 + (u2 - 56320))%N))
                                else scan_string fuel' r (String.append acc (utf8 u))
                            end
                        end
                      else scan_string fuel' r (String.append acc (utf8 u))
                  end
                else
                  match simple_escape e with
                  | Some x => scan_string fuel' s'' (snoc acc x)
                  | None => None
                  end
            end
          else scan_string fuel' s' (snoc acc c)
      end
  end.

Fixpoint span_digits (s : string) : string * string :=
  match s with
  | String c s' =>
      if is_digit c
      then (let (ds, r) := span_digits s' in (String c ds, r))
      else (EmptyString, s)
  | EmptyString => (EmptyString, s)
  end.

(** [NUMBER_RE]: an optional minus sign, then a single zero or a digit
    run that does not start with zero, then optionally a dot with at least
    one digit, then optionally [e] or [E], an optional sign and at least
    one digit.  The fraction and the exponent are taken only when they
    match whole. *)
Definition scan_int (s : string) : option (string * string) :=
  match s with
  | String c r =>
      if (code c =? 48)%N then Some (String c EmptyString, r)
      else if is_digit c then
        (let (ds, r') := span_digits r in Some (String c ds, r'))
      else None
  | EmptyString => None
  end.

Definition scan_frac (s : string) : string * string :=
  match s with
  | String c r =>
      if (code c =? 46)%N then
        match span_digits r with
        | (EmptyString, _) => (EmptyString, s)
        | (ds, r') => (String c ds, r')
        end
      else (EmptyString, s)
  | EmptyString => (EmptyString, s)
  end.

Definition scan_exp (s : string) : string * string :=
  match s with
  | String c r =>
      if ((code c =? 101) || (code c =? 69))%N then
        let '(sign, r1) :=
          match r with
          | String g r0 =>
              if ((code g =? 43) || (code g =? 45))%N
              then (String g EmptyString, r0) else (EmptyString, r)
          | EmptyString => (EmptyString, r)
          end in
        match span_digits r1 with
        | (EmptyString, _) => (EmptyString, s)
        | (ds, r') => (String c (String.append sign ds), r')
        end
      else (EmptyString, s)
  | EmptyString => (EmptyString, s)
  end.

Definition scan_number (s : string) : option (string * string) :=
  let '(sign, s1) :=
    match s with
    | String c r =>
        if (code c =? 45)%N then (String c EmptyString, r) else (EmptyString, s)
    | EmptyString => (EmptyString, s)
    end in
  match scan_int s1 with
  | None => None
  | Some (i, r1) =>
      let (f, r2) := scan_frac r1 in
      let (e, r3) := scan_exp r2 in
      Some (String.append sign (String.append i (String.append f e)), r3)
  end.

Definition literals : list (string * value) :=
  [ ("null"%string, JNull); ("true"%string, JBool true);
    ("false"%string, JBool false) ].

Definition constants : list (string * value) :=
  [ ("NaN"%string, JNumber "NaN"); ("Infinity"%string, JNumber "Infinity");
    ("-Infinity"%string, JNumber "-Infinity") ].

Fixpoint scan_keyword (kws : list (string * value)) (s : string)
  : option (value * string) :=
  match kws with
  | [] => None
  | (k, v) :: kws' =>
      match strip_prefix k s with
      | Some r => Some (v, r)
      | None => scan_keyword kws' s
      end
  end.

(** [scan_once], [JSONArray] and [JSONObject]. *)
Fixpoint scan_once (fuel : nat) (s : string) : option (value * string) :=
  match fuel with
  | O => None
  | S fuel' =>
      match s with
      | EmptyString => None
      | String c s' =>
          if (code c =? 34)%N then
            match scan_string (S (String.length s')) s' EmptyString with
            | Some (str, r) => Some (JString str, r)
            | None => None
            end
          else if (code c =? 123)%N then
            match skip_ws s' with
            | String d r =>
                if (code d =? 125)%N then Some (JObject [], r)
                else
                  match scan_members fuel' (String d r) with
                  | Some (ms, r') => Some (JObject ms, r')
                  | None => None
                  end
            | EmptyString => None
            end
          else if (code c =? 91)%N then
            match skip_ws s' with
            | String d r =>
                if (code d =? 93)%N then Some (JArray [], r)
                else
                  match scan_elements fuel' (String d r) with
                  | Some (vs, r') => Some (JArray vs, r')
                  | None => None
                  end
            | EmptyString => None
            end
          else
            match scan_keyword literals s with
            | Some res => Some res
            | None =>
                match scan_number s with
                | Some (lexeme, r) => Some (JNumber lexeme, r)
                | None => scan_keyword constants s
                end
            end
      end
  end
with scan_elements (fuel : nat) (s : string) : option (list value * string) :=
  match fuel with
  | O => None
  | S fuel' =>
      match scan_once fuel' s with
      | None => None
      | Some (v, r) =>
          match skip_ws r with
          | String d r' =>
              if (code d =? 93)%N then Some ([v], r')
              else if (code d =? 44)%N then
                match scan_elements fuel' (skip_ws r') with
                | Some (vs, r'') => Some (v :: vs, r'')
                | None => None
                end
              else None
          | EmptyString => None
          end
      end
  end
with scan_members (fuel : nat) (s : string)
  : option (list (string * value) * string) :=
  match fuel with
  | O => None
  | S fuel' =>
      match s with
      | String q s' =>
          if (code q =? 34)%N then
            match scan_string (S (String.length s')) s' EmptyString with
            | None => None
            | Some (key, r) =>
                match skip_ws r with
                | String colon r1 =>
                    if (code colon =? 58)%N then
                      match scan_once fuel' (skip_ws r1) with
                      | None => None
                      | Some (v, r2) =>
                          match skip_ws r2 with
                          | String d r3 =>
                              if (code d =? 125)%N then Some ([(key, v)], r3)
                              else if (code d =? 44)%N then
                                match scan_members fuel' (skip_ws r3) with
                                | Some (ms, r4) => Some ((key, v) :: ms, r4)
                                | None => None
                                end
                              else None
                          | EmptyString => None
                          end
                      end
                    else None
                | EmptyString => None
                end
            end
          else None
      | EmptyString => None
      end
  end.

(** [JSONDecoder.decode]: leading whitespace, one value, trailing
    whitespace, nothing else.  Every call of the scanner consumes a
    character, so twice the length is fuel enough. *)
Definition loads (s : string) : option value :=
  match scan_once (2 * String.length s + 2) (skip_ws s) with
  | Some (v, r) =>
      match skip_ws r with
      | EmptyString => Some v
      | String _ _ => None
      end
  | None => None
  end.

End Json.

Local Open Scope string_scope.

(** ** Python exceptions, results and the frame of a call *)

Inductive PyExc : Type :=
| SqliteError (msg : string)   (* sqlite3.Error and its subclasses *)
| ValidationError              (* pydantic_core.ValidationError *)
| JSONDecodeError              (* json.JSONDecodeError *)
| UnicodeDecodeError
| UnicodeEncodeError
| OverflowError
| TypeError
| NameError.

Inductive Result (A : Type) : Type :=
| Ok (a : A)
| Raise (e : PyExc).
Arguments Ok {A} a.
Arguments Raise {A} e.

(** What the local variable [conn] refers to: [None] is Python's [None]. *)
Inductive Conn : Type := Open | Closed.

Record Frame : Type := {
  calls : nat;              (* store calls made so far *)
  conn : option Conn;       (* the local [conn] *)
  stdout : list string      (* lines printed so far *)
}.

Definition Py (A : Type) : Type := Frame -> Result A * Frame.

Definition ret {A} (a : A) : Py A := fun f => (Ok a, f).

Definition raise {A} (e : PyExc) : Py A := fun f => (Raise e, f).

Definition bind {A B} (m : Py A) (k : A -> Py B) : Py B :=
  fun f =>
    match m f with
    | (Ok a, f') => k a f'
    | (Raise e, f') => (Raise e, f')
    end.

Notation "x <- m ;; k" := (bind m (fun x => k))
  (at level 61, m at next level, right associativity).
Notation "m ;; k" := (bind m (fun _ => k))
  (at level 61, right associativity).

Definition lift {A} (r : Result A) : Py A := fun f => (r, f).

(** [try: m  except E: handler]: [handler e] is [None] when the except
    clause does not match [e]. *)
Definition try_except {A} (m : Py A) (handler : PyExc -> option (Py A)) : Py A :=
  fun f =>
    match m f with
    | (Ok a, f') => (Ok a, f')
    | (Raise e, f') =>
        match handler e with
        | Some h => h f'
        | None => (Raise e, f')
        end
    end.

(** [try: m  finally: fin]: [fin] runs on every way out of [m]; when it
    ends normally the return value or exception of [m] goes on. *)
Definition try_finally {A} (m : Py A) (fin : Py unit) : Py A :=
  fun f =>
    match m f with
    | (r, f') =>
        match fin f' with
        | (Ok _, f'') => (r, f'')
        | (Raise e, f'') => (Raise e, f'')
        end
    end.

Fixpoint for_each {A B} (body : A -> Py B) (l : list A) : Py (list B) :=
  match l with
  | [] => ret []
  | x :: l' => y <- body x ;; ys <- for_each body l' ;; ret (y :: ys)
  end.

Definition print (line : string) : Py unit :=
  fun f => (Ok tt, {| calls := calls f; conn := conn f;
                      stdout := (stdout f ++ [line])%list |}).

Definition set_conn (c : option Conn) : Py unit :=
  fun f => (Ok tt, {| calls := calls f; conn := c; stdout := stdout f |}).

(** One call into [sqlite3]: it is counted, and raises when the store says
    that this call fails; this comes before the call binds a parameter or
    converts a row. *)
Definition store_call (db : Store) : Py unit :=
  fun f =>
    let f' := {| calls := S (calls f); conn := conn f; stdout := stdout f |} in
    match failure db (calls f) with
    | Some msg => (Raise (SqliteError msg), f')
    | None => (Ok tt, f')
    end.

Definition entry : Frame := {| calls := 0; conn := None; stdout := [] |}.

(** ** Third-party behaviour that the module relies on

    pydantic (version 2, lax mode) validates the value given for a field of
    type [str], [int] or [float]; [json.loads] decodes a [bytes] argument
    before scanning it.  How they coerce a value of another type (a numeric
    string for an [int], a [bytes] for a [str]) is left open; what is fixed
    is what they do with a value that already has the type, with [None], and
    with a number where a [str] is wanted.  Left open as well is the wording
    of the message with which [sqlite3] reports a TEXT column that it cannot
    decode, [could_not_decode column text]. *)
Class Library : Type := {
  validate_str : SqlValue -> option string;
  validate_int : SqlValue -> option Z;
  validate_float : SqlValue -> option PyFloat;
  decode_bytes : list byte -> option string;
  could_not_decode : string -> string -> string;
  validate_str_text : forall s, validate_str (SqlText s) = Some s;
  validate_str_null : validate_str SqlNull = None;
  validate_str_int : forall n, validate_str (SqlInt n) = None;
  validate_str_real : forall x, validate_str (SqlReal x) = None;
  validate_int_int : forall n, validate_int (SqlInt n) = Some n;
  validate_int_null : validate_int SqlNull = None;
  validate_float_real : forall x, validate_float (SqlReal x) = Some x;
  validate_float_null : validate_float SqlNull = None
}.

(** The message as CPython 3.12 words it: the format is written to a
    buffer of 200 bytes, the text as a C string, and the bytes of the buffer
    that are no ASCII are replaced by U+FFFD. *)
Definition replacement_character : string :=
  String (ascii_of_N 239) (String (ascii_of_N 191) (String (ascii_of_N 189) EmptyString)).

Fixpoint c_string (s : string) : string :=
  match s with
  | EmptyString => EmptyString
  | String a r => if (N_of_ascii a =? 0)%N then EmptyString else String a (c_string r)
  end.

Fixpoint ascii_replace (s : string) : string :=
  match s with
  | EmptyString => EmptyString
  | String a r =>
      (if (N_of_ascii a <? 128)%N then String a EmptyString
       else replacement_character) ++ ascii_replace r
  end.

Definition could_not_decode_3_12 (column text : string) : string :=
  ascii_replace
    (substring 0 198
       ("Could not decode to UTF-8 column '" ++ column ++ "' with text '"
          ++ c_string text ++ "'")).

(** One library that meets these laws, to run the model on examples in
    which every value has the type of its field: it coerces nothing, a field
    takes only a value of its own type. *)
#[refine] Instance uncoerced : Library := {|
  validate_str := fun v => match v with SqlText s => Some s | _ => None end;
  validate_int := fun v => match v with SqlInt n => Some n | _ => None end;
  validate_float := fun v => match v with SqlReal x => Some x | _ => None end;
  decode_bytes := fun _ => None;
  could_not_decode := could_not_decode_3_12
|}.
Proof. all: reflexivity. Defined.

(** ** The pydantic models of [customer.py] *)

Module Address.
Record t : Type := {
  street : string;
  city : string;
  state : string;
  zip : string
}.
End Address.

Module Product.
Record t : Type := {
  product_id : string;
  name : string;
  quantity : Z
}.
End Product.

Module Purchase.
Record t : Type := {
  date : string;
  items : list Product.t;
  total_amount : PyFloat
}.
End Purchase.

Module CommunicationPreferences.
Record t : Type := {
  email : bool;
  sms : bool;
  push_notifications : bool
}.
End CommunicationPreferences.

Module GardenProfile.
Record t : Type := {
  type : string;
  size : string;
  sun_exposure : string;
  soil_type : string;
  interests : list string
}.
End GardenProfile.

Module Customer.
Record t : Type := {
  account_number : string;
  customer_id : string;
  customer_first_name : string;
  customer_last_name : string;
  email : string;
  phone_number : option string;
  customer_start_date : string;
  years_as_customer : Z;
  billing_address : Address.t;
  purchase_history : list Purchase.t;
  loyalty_points : Z;
  preferred_store : string;
  communication_preferences : CommunicationPreferences.t;
  garden_profile : option GardenProfile.t
}.
End Customer.

(** The keyword arguments of the final call, [customer_data]: every column
    of the row ([dict(customer_row)]) and the four keys assigned after it. *)
Record CustomerData : Type := {
  columns : Schema.customer;
  billing_address : Address.t;
  purchase_history : list Purchase.t;
  communication_preferences : CommunicationPreferences.t;
  garden_profile : option GardenProfile.t
}.

(** The argument that [get_customer] receives in its one parameter: a
    [str], or the class [Customer] itself when the classmethod is called
    with no argument. *)
Inductive PyObj : Type :=
| ObjStr (s : string)
| ObjCustomerClass.

(** [str(o)], as the f-string of the not-found message formats it. *)
Definition py_str (o : PyObj) : string :=
  match o with
  | ObjStr s => s
  | ObjCustomerClass => "<class 'Customer_Service.entities.customer.Customer'>"
  end.

(** The longest C string that [sqlite3] hands to SQLite, and the longest
    text that SQLite takes (its default length limit), in bytes. *)
Definition INT_MAX : N := 2147483647.

Definition SQLITE_MAX_LENGTH : N := 1000000000.

(** A [str] that [sqlite3] binds as it is: it encodes to UTF-8, which a
    [str] with a surrogate does not, and SQLite takes its length. *)
Definition bindable (s : string) : bool :=
  Utf8.valid s && (N.of_nat (String.length s) <=? SQLITE_MAX_LENGTH)%N.

(** Binding the query parameter [(customer_id,)].  A [str] is encoded to
    UTF-8 first: one that holds a surrogate raises [UnicodeEncodeError],
    which is no [sqlite3.Error]; so is the [OverflowError] for a text longer
    than a C [int] counts, while a text that SQLite finds too long gives a
    [sqlite3.DataError].  For a class object [sqlite3] raises as well (a
    [sqlite3.ProgrammingError], with this message, since Python 3.11; a
    [sqlite3.InterfaceError] before). *)
Definition bind_parameter (o : PyObj) : Result string :=
  match o with
  | ObjStr s =>
      if negb (Utf8.valid s) then Raise UnicodeEncodeError
      else if (INT_MAX <? N.of_nat (String.length s))%N then Raise OverflowError
      else if (SQLITE_MAX_LENGTH <? N.of_nat (String.length s))%N
      then Raise (SqliteError "string or blob too big")
      else Ok s
  | ObjCustomerClass =>
      Raise (SqliteError "Error binding parameter 1: type 'ModelMetaclass' is not supported")
  end.

(** Names bound in the body of [get_customer]: its parameter and the
    variables it assigns. *)
Definition get_customer_locals : list string :=
  [ "customer_id"; "conn"; "cursor"; "customer_row"; "billing_address";
    "comm_prefs"; "garden_profile"; "purchase_history"; "purchase_rows";
    "purchase_row"; "item_rows"; "item"; "items"; "purchase";
    "customer_data"; "e" ].

(** Names bound at the top level of [customer.py]: the imports, the six
    classes and, when the file is run as a script, [db_file]. *)
Definition module_globals : list string :=
  [ "sqlite3"; "json"; "List"; "Dict"; "Optional"; "BaseModel"; "ConfigDict";
    "Field"; "Address"; "Product"; "Purchase"; "CommunicationPreferences";
    "GardenProfile"; "Customer"; "db_file" ].

(** Evaluating the name [cls] in the body.  It is no builtin, so it has to
    be a local or a global of the module. *)
Definition load_cls : Result unit :=
  if existsb (String.eqb "cls") (get_customer_locals ++ module_globals)%list
  then Ok tt
  else Raise NameError.

(** The two lines that the function prints (its f-strings). *)
Definition not_found_line (customer_id : PyObj) : string :=
  "Customer with ID " ++ py_str customer_id ++ " not found.".

Definition database_error_line (msg : string) : string :=
  "Database error: " ++ msg.

Section Reconstructor.

Context {L : Library}.

(** Sequencing of two steps that may raise. *)
Definition and_then {A B} (r : Result A) (k : A -> Result B) : Result B :=
  match r with
  | Ok a => k a
  | Raise e => Raise e
  end.

(** [json.loads(v)] for a fetched column. *)
Definition json_loads (v : SqlValue) : Result Json.value :=
  let scan (s : string) :=
    match Json.loads s with
    | Some j => Ok j
    | None => Raise JSONDecodeError
    end in
  match v with
  | SqlText s => scan s
  | SqlBlob b =>
      match decode_bytes b with
      | Some s => scan s
      | None => Raise UnicodeDecodeError
      end
  | SqlNull | SqlInt _ | SqlReal _ => Raise TypeError
  end.

(** A field of type [List[str]] given a decoded JSON value: a list whose
    members all are strings. *)
Fixpoint all_strings (l : list Json.value) : option (list string) :=
  match l with
  | [] => Some []
  | Json.JString s :: l' =>
      match all_strings l' with
      | Some ss => Some (s :: ss)
      | None => None
      end
  | _ :: _ => None
  end.

Definition validate_str_list (j : Json.value) : option (list string) :=
  match j with
  | Json.JArray l => all_strings l
  | _ => None
  end.

(** [Address(street=..., city=..., state=..., zip=...)] *)
Definition Address_init (street city state zip : SqlValue) : Result Address.t :=
  match validate_str street, validate_str city,
        validate_str state, validate_str zip with
  | Some a, Some b, Some c, Some d =>
      Ok {| Address.street := a; Address.city := b;
            Address.state := c; Address.zip := d |}
  | _, _, _, _ => Raise ValidationError
  end.

(** [CommunicationPreferences(email=bool(..), sms=bool(..),
    push_notifications=bool(..))]: the three arguments are [bool]s, so
    the constructor cannot fail. *)
Definition comm_prefs_of (customer_row : Schema.customer)
  : CommunicationPreferences.t :=
  {| CommunicationPreferences.email :=
       py_bool (Schema.comm_pref_email customer_row);
     CommunicationPreferences.sms :=
       py_bool (Schema.comm_pref_sms customer_row);
     CommunicationPreferences.push_notifications :=
       py_bool (Schema.comm_pref_push customer_row) |}.

(** [GardenProfile(type=..., size=..., sun_exposure=..., soil_type=...,
    interests=...)] *)
Definition GardenProfile_init (type size sun_exposure soil_type : SqlValue)
    (interests : Json.value) : Result GardenProfile.t :=
  match validate_str type, validate_str size, validate_str sun_exposure,
        validate_str soil_type, validate_str_list interests with
  | Some a, Some b, Some c, Some d, Some l =>
      Ok {| GardenProfile.type := a; GardenProfile.size := b;
            GardenProfile.sun_exposure := c; GardenProfile.soil_type := d;
            GardenProfile.interests := l |}
  | _, _, _, _, _ => Raise ValidationError
  end.

(** Lines 114-122: the profile is built only when [garden_type] is
    truthy; the arguments are evaluated, [json.loads] last, before the
    constructor validates them. *)
Definition garden_profile_of (customer_row : Schema.customer)
  : Result (option GardenProfile.t) :=
  if py_bool (Schema.garden_type customer_row) then
    and_then (json_loads (Schema.garden_interests customer_row)) (fun interests =>
    and_then (GardenProfile_init (Schema.garden_type customer_row)
                (Schema.garden_size customer_row)
                (Schema.garden_sun_exposure customer_row)
                (Schema.garden_soil_type customer_row)
                interests) (fun g =>
    Ok (Some g)))
  else Ok None.

(** [Product(product_id=item['product_id'], name=item['name'],
    quantity=item['quantity'])] *)
Definition Product_init (item : Schema.item) : Result Product.t :=
  match validate_str (Schema.product_id item), validate_str (Schema.name item),
        validate_int (Schema.quantity item) with
  | Some a, Some b, Some n =>
      Ok {| Product.product_id := a; Product.name := b; Product.quantity := n |}
  | _, _, _ => Raise ValidationError
  end.

(** The list comprehension over [item_rows]. *)
Fixpoint products_of (item_rows : list Schema.item) : Result (list Product.t) :=
  match item_rows with
  | [] => Ok []
  | item :: rest =>
      and_then (Product_init item) (fun p =>
      and_then (products_of rest) (fun ps => Ok (p :: ps)))
  end.

(** [Purchase(date=..., items=items, total_amount=...)] *)
Definition Purchase_init (date : SqlValue) (items : list Product.t)
    (total_amount : SqlValue) : Result Purchase.t :=
  match validate_str date, validate_float total_amount with
  | Some d, Some x =>
      Ok {| Purchase.date := d; Purchase.items := items;
            Purchase.total_amount := x |}
  | _, _ => Raise ValidationError
  end.

(** A field of type [Optional[str]]: [None] is taken as it is. *)
Definition validate_optional_str (v : SqlValue) : option (option string) :=
  match v with
  | SqlNull => Some None
  | _ => option_map Some (validate_str v)
  end.

(** [Customer] called with the keyword arguments [customer_data]: the fields are looked up by name among
    the keyword arguments; pydantic ignores the keys that name no field
    (the flattened [billing_address_*], [comm_pref_*], [garden_*] columns
    and [scheduled_appointments]).  A key that is present is validated
    even when the field has a default. *)
Definition Customer_init (kw : CustomerData) : Result Customer.t :=
  let r := columns kw in
  match validate_str (Schema.account_number r),
        validate_str (Schema.customer_id r),
        validate_str (Schema.customer_first_name r),
        validate_str (Schema.customer_last_name r),
        validate_str (Schema.email r) with
  | Some acc, Some cid, Some fn, Some ln, Some em =>
      match validate_optional_str (Schema.phone_number r),
            validate_str (Schema.customer_start_date r),
            validate_int (Schema.years_as_customer r),
            validate_int (Schema.loyalty_points r),
            validate_str (Schema.preferred_store r) with
      | Some ph, Some sd, Some yrs, Some pts, Some ps =>
          Ok {| Customer.account_number := acc;
                Customer.customer_id := cid;
                Customer.customer_first_name := fn;
                Customer.customer_last_name := ln;
                Customer.email := em;
                Customer.phone_number := ph;
                Customer.customer_start_date := sd;
                Customer.years_as_customer := yrs;
                Customer.billing_address := billing_address kw;
                Customer.purchase_history := purchase_history kw;
                Customer.loyalty_points := pts;
                Customer.preferred_store := ps;
                Customer.communication_preferences := communication_preferences kw;
                Customer.garden_profile := garden_profile kw |}
      | _, _, _, _, _ => Raise ValidationError
      end
  | _, _, _, _, _ => Raise ValidationError
  end.

(** *** [get_customer] *)

(** Line 88, [conn = sqlite3.connect('customer_service.db')]. *)
Definition connect (db : Store) : Py unit :=
  store_call db ;; set_conn (Some Open).

(** [cursor.execute(sql, (p,))]: the statement is prepared, then the
    parameter is bound. *)
Definition execute {A} (db : Store) (p : PyObj) (select : string -> list A)
  : Py (list A) :=
  store_call db ;;
  s <- lift (bind_parameter p) ;;
  ret (select s).

(** A row of the result is turned into Python values when it is fetched
    (Python 3.11 and later; before, the first row was converted by
    [execute]): the text of a TEXT column is decoded as UTF-8, and
    [sqlite3.OperationalError] is raised for the first column whose text
    does not decode. *)
Definition decode_row {A} (columns : A -> list (string * SqlValue)) (row : A)
  : Py A :=
  match undecodable (columns row) with
  | Some (column, text) => raise (SqliteError (could_not_decode column text))
  | None => ret row
  end.

(** [cursor.fetchone()]: only the first row is converted. *)
Definition fetchone {A} (db : Store) (columns : A -> list (string * SqlValue))
    (rows : list A) : Py (option A) :=
  store_call db ;;
  match rows with
  | [] => ret None
  | row :: _ => row <- decode_row columns row ;; ret (Some row)
  end.

(** [cursor.fetchall()]: the rows are converted one after the other. *)
Definition fetchall {A} (db : Store) (columns : A -> list (string * SqlValue))
    (rows : list A) : Py (list A) :=
  store_call db ;; for_each (decode_row columns) rows.

(** Lines 129-146, one turn of the loop over [purchase_rows]. *)
Definition purchase_of (db : Store) (purchase_row : Schema.purchase)
  : Py Purchase.t :=
  store_call db ;;
  item_rows <- fetchall db Schema.item_columns
                 (select_items db (Schema.purchase_id purchase_row)) ;;
  items <- lift (products_of item_rows) ;;
  lift (Purchase_init (Schema.date purchase_row) items
          (Schema.total_amount purchase_row)).

(** Lines 100-153: the keyword arguments [customer_data] that the function
    builds from the row once it is found. *)
Definition customer_data_of (db : Store) (customer_id : PyObj)
    (customer_row : Schema.customer) : Py CustomerData :=
  billing_address <- lift (Address_init
                             (Schema.billing_address_street customer_row)
                             (Schema.billing_address_city customer_row)
                             (Schema.billing_address_state customer_row)
                             (Schema.billing_address_zip customer_row)) ;;
  let comm_prefs := comm_prefs_of customer_row in
  garden_profile <- lift (garden_profile_of customer_row) ;;
  rows <- execute db customer_id (select_purchases db) ;;
  purchase_rows <- fetchall db Schema.purchase_columns rows ;;
  purchase_history <- for_each (purchase_of db) purchase_rows ;;
  ret {| columns := customer_row;
         billing_address := billing_address;
         purchase_history := purchase_history;
         communication_preferences := comm_prefs;
         garden_profile := garden_profile |}.

(** Lines 100-155, what is done with the row once it is found: the
    keyword arguments are built and, line 155, handed to [cls]. *)
Definition reconstruct (db : Store) (customer_id : PyObj)
    (customer_row : Schema.customer) : Py (option Customer.t) :=
  customer_data <- customer_data_of db customer_id customer_row ;;
  lift load_cls ;;
  customer <- lift (Customer_init customer_data) ;;
  ret (Some customer).

(** Lines 88-155, the [try] block. *)
Definition try_block (db : Store) (customer_id : PyObj)
  : Py (option Customer.t) :=
  connect db ;;
  store_call db ;;
  rows <- execute db customer_id (select_customers db) ;;
  customer_row <- fetchone db Schema.customer_columns rows ;;
  match customer_row with
  | None =>
      print (not_found_line customer_id) ;;
      ret None
  | Some customer_row => reconstruct db customer_id customer_row
  end.

(** Lines 157-159, [except sqlite3.Error as e]. *)
Definition except_sqlite_error (e : PyExc) : option (Py (option Customer.t)) :=
  match e with
  | SqliteError msg => Some (print (database_error_line msg) ;; ret None)
  | _ => None
  end.

(** Lines 160-162, [finally: if conn: conn.close()]. *)
Definition close_if_connected : Py unit :=
  fun f =>
    match conn f with
    | Some _ => set_conn (Some Closed) f
    | None => (Ok tt, f)
    end.

(** The function defined at line 82, applied to a value for its
    parameter [customer_id]. *)
Definition get_customer (db : Store) (customer_id : PyObj)
  : Py (option Customer.t) :=
  set_conn None ;;
  try_finally
    (try_except (try_block db customer_id) except_sqlite_error)
    close_if_connected.

(** A call of the function with positional arguments: it has exactly one
    parameter. *)
Definition call_get_customer (db : Store) (args : list PyObj)
  : Py (option Customer.t) :=
  match args with
  | [customer_id] => get_customer db customer_id
  | _ => raise TypeError
  end.

(** [Customer.get_customer(args)]: [@classmethod] passes the class as
    the first positional argument. *)
Definition Customer_get_customer (db : Store) (args : list PyObj)
  : Py (option Customer.t) :=
  call_get_customer db (ObjCustomerClass :: args).

End Reconstructor.

(** ** The store that [setup_database.py] creates *)

Module Seed.

Definition double (mantissa : positive) (exponent : Z) : SqlValue :=
  SqlReal (S754_finite false mantissa exponent).

(** Lines 87-96. *)
Definition cust001 : Schema.customer := {|
  Schema.customer_id := SqlText "CUST001";
  Schema.account_number := SqlText "ACC12345";
  Schema.customer_first_name := SqlText "John";
  Schema.customer_last_name := SqlText "Smith";
  Schema.email := SqlText "john.smith@email.com";
  Schema.phone_number := SqlText "555-0123";
  Schema.customer_start_date := SqlText "2020-05-01";
  Schema.years_as_customer := SqlInt 4;
  Schema.billing_address_street := SqlText "123 Garden Lane";
  Schema.billing_address_city := SqlText "Springfield";
  Schema.billing_address_state := SqlText "IL";
  Schema.billing_address_zip := SqlText "62701";
  Schema.loyalty_points := SqlInt 250;
  Schema.preferred_store := SqlText "Springfield Garden Center";
  Schema.comm_pref_email := SqlInt 1;
  Schema.comm_pref_sms := SqlInt 0;
  Schema.comm_pref_push := SqlInt 1;
  Schema.garden_type := SqlText "Vegetable Garden";
  Schema.garden_size := SqlText "Medium";
  Schema.garden_sun_exposure := SqlText "Full Sun";
  Schema.garden_soil_type := SqlText "Loamy";
  Schema.garden_interests := SqlText "Organic Gardening,Composting,Herb Growing";
  Schema.scheduled_appointments := SqlText "{}"
|}.

(** Lines 99-107. *)
Definition product (id name : string) : Schema.product :=
  {| Schema.p_product_id := SqlText id; Schema.p_name := SqlText name |}.

Definition products_to_insert : list Schema.product :=
  [ product "fert-111" "All-Purpose Fertilizer";
    product "trowel-222" "Gardening Trowel";
    product "seeds-333" "Tomato Seeds (Variety Pack)";
    product "pots-444" "Terracotta Pots (6-inch)";
    product "gloves-555" "Gardening Gloves (Leather)";
    product "pruner-666" "Pruning Shears" ].

(** Lines 110-122; the keys are the ones AUTOINCREMENT gives to rows
    inserted into the empty tables. *)
Definition purchase (id : Z) (date : string) (total : SqlValue)
  : Schema.purchase :=
  {| Schema.purchase_id := id;
     Schema.pu_customer_id := SqlText "CUST001";
     Schema.date := SqlText date;
     Schema.total_amount := total |}.

Definition line (id purchase_id : Z) (product_id : string) (quantity : Z)
  : Schema.purchase_item :=
  {| Schema.purchase_item_id := id;
     Schema.pi_purchase_id := SqlInt purchase_id;
     Schema.pi_product_id := SqlText product_id;
     Schema.pi_quantity := SqlInt quantity |}.

Definition sample_purchases : list Schema.purchase :=
  [ purchase 1 "2023-03-05" (double 5063734831024701 (-47));   (* 35.98 *)
    purchase 2 "2023-07-12" (double 5981343255101440 (-47));   (* 42.50 *)
    purchase 3 "2024-01-20" (double 7775746231631872 (-47)) ]. (* 55.25 *)

Definition sample_items : list Schema.purchase_item :=
  [ line 1 1 "fert-111" 1; line 2 1 "trowel-222" 1;
    line 3 2 "seeds-333" 2; line 4 2 "pots-444" 4;
    line 5 3 "gloves-555" 1; line 6 3 "pruner-666" 1 ].

Definition db : Store := {|
  customers := [cust001];
  products := products_to_insert;
  purchases := sample_purchases;
  purchase_items := sample_items;
  failure := fun _ => None
|}.

End Seed.


(** ** The script [setup_database.py]

    The script works on the database file through one connection.  A table
    of the file is a list of rows, or [None] when the table does not exist.
    The [sqlite3] module opens a transaction before the first INSERT and
    not before a DROP or CREATE, which therefore change the file at once;
    [commit] makes the inserted rows durable and [rollback] forgets them. *)
Module SetupDatabase.

Record DbFile : Type := {
  file_customers : option (list Schema.customer);
  file_products : option (list Schema.product);
  file_purchases : option (list Schema.purchase);
  file_purchase_items : option (list Schema.purchase_item)
}.

Inductive Table : Type := Customers | Products | Purchases | PurchaseItems.

Definition table_name (t : Table) : string :=
  match t with
  | Customers => "customers"
  | Products => "products"
  | Purchases => "purchases"
  | PurchaseItems => "purchase_items"
  end.

Definition table_exists (t : Table) (d : DbFile) : bool :=
  match t with
  | Customers => match file_customers d with Some _ => true | None => false end
  | Products => match file_products d with Some _ => true | None => false end
  | Purchases => match file_purchases d with Some _ => true | None => false end
  | PurchaseItems =>
      match file_purchase_items d with Some _ => true | None => false end
  end.

Definition set_customers (o : option (list Schema.customer)) (d : DbFile) : DbFile :=
  {| file_customers := o;
     file_products := file_products d;
     file_purchases := file_purchases d;
     file_purchase_items := file_purchase_items d |}.

Definition set_products (o : option (list Schema.product)) (d : DbFile) : DbFile :=
  {| file_customers := file_customers d;
     file_products := o;
     file_purchases := file_purchases d;
     file_purchase_items := file_purchase_items d |}.

Definition set_purchases (o : option (list Schema.purchase)) (d : DbFile) : DbFile :=
  {| file_customers := file_customers d;
     file_products := file_products d;
     file_purchases := o;
     file_purchase_items := file_purchase_items d |}.

Definition set_purchase_items (o : option (list Schema.purchase_item)) (d : DbFile)
  : DbFile :=
  {| file_customers := file_customers d;
     file_products := file_products d;
     file_purchases := file_purchases d;
     file_purchase_items := o |}.

(** [DROP TABLE IF EXISTS t]: afterwards there is no such table. *)
Definition drop_table (t : Table) (d : DbFile) : DbFile :=
  match t with
  | Customers => set_customers None d
  | Products => set_products None d
  | Purchases => set_purchases None d
  | PurchaseItems => set_purchase_items None d
  end.

(** [CREATE TABLE t (...)]: an error when the table exists, the empty table
    otherwise. *)
Definition create_table (t : Table) (d : DbFile) : Result DbFile :=
  if table_exists t d
  then Raise (SqliteError ("table " ++ table_name t ++ " already exists"))
  else Ok match t with
          | Customers => set_customers (Some []) d
          | Products => set_products (Some []) d
          | Purchases => set_purchases (Some []) d
          | PurchaseItems => set_purchase_items (Some []) d
          end.

Definition no_such_table {A} (t : Table) : Result A :=
  Raise (SqliteError ("no such table: " ++ table_name t)).

Definition is_null (v : SqlValue) : bool :=
  match v with
  | SqlNull => true
  | _ => false
  end.

(** [INSERT INTO customers (...) VALUES (...)]: [customer_id] is the
    primary key and [email] is UNIQUE, so neither may equal that of a row
    already there; [account_number] and the two names are NOT NULL. *)
Definition insert_customer (row : Schema.customer) (d : DbFile)
  : Result (unit * DbFile) :=
  match file_customers d with
  | None => no_such_table Customers
  | Some rows =>
      if is_null (Schema.account_number row)
         || is_null (Schema.customer_first_name row)
         || is_null (Schema.customer_last_name row)
      then Raise (SqliteError "NOT NULL constraint failed")
      else if existsb (fun r => sql_eq (Schema.customer_id r) (Schema.customer_id row))
                rows
      then Raise (SqliteError "UNIQUE constraint failed: customers.customer_id")
      else if existsb (fun r => sql_eq (Schema.email r) (Schema.email row)) rows
      then Raise (SqliteError "UNIQUE constraint failed: customers.email")
      else Ok (tt, set_customers (Some (rows ++ [row])%list) d)
  end.

(** One row of [INSERT OR IGNORE INTO products]: a row that would break the
    primary key or the NOT NULL of [name] is skipped. *)
Definition insert_or_ignore (rows : list Schema.product) (p : Schema.product)
  : list Schema.product :=
  if is_null (Schema.p_name p)
     || existsb (fun r => sql_eq (Schema.p_product_id r) (Schema.p_product_id p)) rows
  then rows
  else (rows ++ [p])%list.

(** [executemany] of that statement over a list of rows. *)
Definition insert_products (ps : list Schema.product) (d : DbFile)
  : Result (unit * DbFile) :=
  match file_products d with
  | None => no_such_table Products
  | Some rows => Ok (tt, set_products (Some (fold_left insert_or_ignore ps rows)) d)
  end.

(** The key that AUTOINCREMENT gives to a new row: one more than the
    largest key so far.  (The tables are new when the script inserts, so
    the largest key ever used is the largest key in the table.) *)
Definition next_rowid (keys : list Z) : Z :=
  1 + fold_right Z.max 0 keys.

(** A Python [float] as a bound parameter: NaN is bound as NULL. *)
Definition bind_float (x : PyFloat) : SqlValue :=
  match x with
  | S754_nan => SqlNull
  | _ => SqlReal x
  end.

(** [INSERT INTO purchases (customer_id, date, total_amount)]; the result
    is [cursor.lastrowid]. *)
Definition insert_purchase (customer_id date : string) (total : PyFloat)
    (d : DbFile) : Result (Z * DbFile) :=
  match file_purchases d with
  | None => no_such_table Purchases
  | Some rows =>
      if is_null (bind_float total)
      then Raise (SqliteError "NOT NULL constraint failed: purchases.total_amount")
      else
        let purchase_id := next_rowid (map Schema.purchase_id rows) in
        Ok (purchase_id,
            set_purchases
              (Some (rows ++ [ {| Schema.purchase_id := purchase_id;
                                  Schema.pu_customer_id := SqlText customer_id;
                                  Schema.date := SqlText date;
                                  Schema.total_amount := bind_float total |} ])%list)
              d)
  end.

(** [INSERT INTO purchase_items (purchase_id, product_id, quantity)] *)
Definition insert_purchase_item (purchase_id : Z) (product_id : string)
    (quantity : Z) (d : DbFile) : Result (unit * DbFile) :=
  match file_purchase_items d with
  | None => no_such_table PurchaseItems
  | Some rows =>
      Ok (tt,
          set_purchase_items
            (Some (rows ++ [ {| Schema.purchase_item_id :=
                                  next_rowid (map Schema.purchase_item_id rows);
                                Schema.pi_purchase_id := SqlInt purchase_id;
                                Schema.pi_product_id := SqlText product_id;
                                Schema.pi_quantity := SqlInt quantity |} ])%list)
            d)
  end.

(** *** The run of the script *)

Record World : Type := {
  file : DbFile;            (* what the database file holds *)
  view : DbFile;            (* what the connection sees *)
  in_transaction : bool;
  frame : Frame             (* calls made, [connection], lines printed *)
}.

Definition Script (A : Type) : Type := World -> Result A * World.

Definition ret {A} (a : A) : Script A := fun w => (Ok a, w).

Definition bind {A B} (m : Script A) (k : A -> Script B) : Script B :=
  fun w =>
    match m w with
    | (Ok a, w') => k a w'
    | (Raise e, w') => (Raise e, w')
    end.

Declare Scope script_scope.
Notation "x <- m ;; k" := (bind m (fun x => k))
  (at level 61, m at next level, right associativity) : script_scope.
Notation "m ;; k" := (bind m (fun _ => k))
  (at level 61, right associativity) : script_scope.
Local Open Scope script_scope.

Definition try_except {A} (m : Script A) (handler : PyExc -> option (Script A))
  : Script A :=
  fun w =>
    match m w with
    | (Ok a, w') => (Ok a, w')
    | (Raise e, w') =>
        match handler e with
        | Some h => h w'
        | None => (Raise e, w')
        end
    end.

Definition try_finally {A} (m : Script A) (fin : Script unit) : Script A :=
  fun w =>
    match m w with
    | (r, w') =>
        match fin w' with
        | (Ok _, w'') => (r, w'')
        | (Raise e, w'') => (Raise e, w'')
        end
    end.

Fixpoint for_each {A} (body : A -> Script unit) (l : list A) : Script unit :=
  match l with
  | [] => ret tt
  | x :: l' => body x ;; for_each body l'
  end.

Definition with_frame (f : Frame) (w : World) : World :=
  {| file := file w; view := view w; in_transaction := in_transaction w;
     frame := f |}.

Definition say (line : string) : Script unit :=
  fun w =>
    (Ok tt,
     with_frame {| calls := calls (frame w); conn := conn (frame w);
                   stdout := (stdout (frame w) ++ [line])%list |} w).

Section Run.

(** [failure k] is the message of the [sqlite3.Error] that the [k]-th call
    into [sqlite3] raises, if it does; call 0 is [sqlite3.connect]. *)
Variable failure : nat -> option string.

Definition call : Script unit :=
  fun w =>
    let w' := with_frame {| calls := S (calls (frame w)); conn := conn (frame w);
                            stdout := stdout (frame w) |} w in
    match failure (calls (frame w)) with
    | Some msg => (Raise (SqliteError msg), w')
    | None => (Ok tt, w')
    end.

(** Line 8: the connection sees what the file holds. *)
Definition connect : Script unit :=
  call ;;
  (fun w =>
     (Ok tt,
      {| file := file w; view := file w; in_transaction := false;
         frame := {| calls := calls (frame w); conn := Some Open;
                     stdout := stdout (frame w) |} |})).

(** A DROP or CREATE: outside a transaction the change is in the file at
    once. *)
Definition ddl (change : DbFile -> Result DbFile) : Script unit :=
  call ;;
  (fun w =>
     match change (view w) with
     | Raise e => (Raise e, w)
     | Ok v =>
         (Ok tt,
          {| file := if in_transaction w then file w else v;
             view := v; in_transaction := in_transaction w; frame := frame w |})
     end).

(** An INSERT on table [t]: the statement is prepared (the table has to
    exist), a transaction is begun unless one is open, and the statement
    runs; a statement that fails changes nothing. *)
Definition dml {A} (t : Table) (step : DbFile -> Result (A * DbFile)) : Script A :=
  call ;;
  (fun w =>
     if table_exists t (view w) then
       match step (view w) with
       | Raise e =>
           (Raise e,
            {| file := file w; view := view w; in_transaction := true;
               frame := frame w |})
       | Ok (a, v) =>
           (Ok a,
            {| file := file w; view := v; in_transaction := true;
               frame := frame w |})
       end
     else (no_such_table t, w)).

Definition commit : Script unit :=
  call ;;
  (fun w =>
     (Ok tt,
      {| file := view w; view := view w; in_transaction := false;
         frame := frame w |})).

Definition rollback : Script unit :=
  fun w =>
    (Ok tt,
     {| file := file w; view := file w; in_transaction := false;
        frame := frame w |}).

(** [connection.close()]: what was not committed is lost. *)
Definition close : Script unit :=
  fun w =>
    (Ok tt,
     {| file := file w; view := file w; in_transaction := false;
        frame := {| calls := calls (frame w); conn := Some Closed;
                    stdout := stdout (frame w) |} |}).

(** Lines 99-106 and 110-114, the two literals. *)
Definition products_to_insert : list (string * string) :=
  [ ("fert-111", "All-Purpose Fertilizer");
    ("trowel-222", "Gardening Trowel");
    ("seeds-333", "Tomato Seeds (Variety Pack)");
    ("pots-444", "Terracotta Pots (6-inch)");
    ("gloves-555", "Gardening Gloves (Leather)");
    ("pruner-666", "Pruning Shears") ].

Record Sample : Type := {
  sample_date : string;
  sample_total : PyFloat;
  sample_items : list (string * Z)
}.

Definition sample_purchases : list Sample :=
  [ {| sample_date := "2023-03-05";
       sample_total := S754_finite false 5063734831024701 (-47);   (* 35.98 *)
       sample_items := [ ("fert-111", 1); ("trowel-222", 1) ] |};
    {| sample_date := "2023-07-12";
       sample_total := S754_finite false 5981343255101440 (-47);   (* 42.50 *)
       sample_items := [ ("seeds-333", 2); ("pots-444", 4) ] |};
    {| sample_date := "2024-01-20";
       sample_total := S754_finite false 7775746231631872 (-47);   (* 55.25 *)
       sample_items := [ ("gloves-555", 1); ("pruner-666", 1) ] |} ].

(** Lines 116-122, one turn of the outer loop. *)
Definition insert_sample (purchase : Sample) : Script unit :=
  purchase_id <- dml Purchases
                   (insert_purchase "CUST001" (sample_date purchase)
                      (sample_total purchase)) ;;
  for_each
    (fun item : string * Z =>
       dml PurchaseItems (insert_purchase_item purchase_id (fst item) (snd item)))
    (sample_items purchase).

Definition success_line : string :=
  "Database 'customer_service.db' set up successfully with new schema and sample data.".

Definition error_line (msg : string) : string :=
  "An error occurred: " ++ msg.

(** Lines 85-126, the [try] block. *)
Definition insert_sample_data : Script unit :=
  dml Customers (insert_customer Seed.cust001) ;;
  dml Products
    (insert_products
       (map (fun p => {| Schema.p_product_id := SqlText (fst p);
                         Schema.p_name := SqlText (snd p) |})
            products_to_insert)) ;;
  for_each insert_sample sample_purchases ;;
  commit ;;
  say success_line.

(** Lines 128-130, [except sqlite3.Error as e]. *)
Definition except_sqlite_error (e : PyExc) : option (Script unit) :=
  match e with
  | SqliteError msg => Some (say (error_line msg) ;; rollback)
  | _ => None
  end.

(** The whole script.  What comes before the [try] statement is not
    covered by its [except] and [finally] clauses. *)
Definition main : Script unit :=
  say "Starting database setup..." ;;
  connect ;;
  call ;;
  ddl (fun d => Ok (drop_table PurchaseItems d)) ;;
  ddl (fun d => Ok (drop_table Products d)) ;;
  ddl (fun d => Ok (drop_table Purchases d)) ;;
  ddl (fun d => Ok (drop_table Customers d)) ;;
  say "Creating 'customers' table..." ;;
  ddl (create_table Customers) ;;
  say "Creating 'products' table..." ;;
  ddl (create_table Products) ;;
  say "Creating 'purchases' table..." ;;
  ddl (create_table Purchases) ;;
  say "Creating 'purchase_items' table..." ;;
  ddl (create_table PurchaseItems) ;;
  say "Inserting sample data..." ;;
  try_finally (try_except insert_sample_data except_sqlite_error) close.

End Run.

(** The state in which the script starts on a file that holds [d]. *)
Definition start (d : DbFile) : World :=
  {| file := d; view := d; in_transaction := false; frame := entry |}.

(** The file that holds the tables of a store. *)
Definition file_of (db : Store) : DbFile :=
  {| file_customers := Some (customers db);
     file_products := Some (products db);
     file_purchases := Some (purchases db);
     file_purchase_items := Some (purchase_items db) |}.

(** The file with the four tables and no row. *)
Definition empty_tables : DbFile :=
  {| file_customers := Some [];
     file_products := Some [];
     file_purchases := Some [];
     file_purchase_items := Some [] |}.

(** A file in which no table holds a row. *)
Definition holds_no_row (d : DbFile) : Prop :=
  (file_customers d = None \/ file_customers d = Some []) /\
  (file_products d = None \/ file_products d = Some []) /\
  (file_purchases d = None \/ file_purchases d = Some []) /\
  (file_purchase_items d = None \/ file_purchase_items d = Some []).

End SetupDatabase.

(** The database file as [get_customer] meets it from [entry]: a table that
    does not exist is the empty list, and the query that names it raises
    [no such table].  Call 2 runs the query on [customers], call 4 the one
    on [purchases], every even call from 6 on the join of [purchase_items]
    with [products]; [oracle] says which other calls fail. *)
Definition open_file (d : SetupDatabase.DbFile) (oracle : nat -> option string)
  : Store :=
  let rows {A} (o : option (list A)) : list A :=
    match o with Some l => l | None => [] end in
  let missing (t : SetupDatabase.Table) : option string :=
    if SetupDatabase.table_exists t d then None
    else Some ("no such table: " ++ SetupDatabase.table_name t) in
  {| customers := rows (SetupDatabase.file_customers d);
     products := rows (SetupDatabase.file_products d);
     purchases := rows (SetupDatabase.file_purchases d);
     purchase_items := rows (SetupDatabase.file_purchase_items d);
     failure := fun k =>
       match oracle k with
       | Some msg => Some msg
       | None =>
           if Nat.eqb k 2 then missing SetupDatabase.Customers
           else if Nat.eqb k 4 then missing SetupDatabase.Purchases
           else if Nat.leb 6 k && Nat.even k then
             match missing SetupDatabase.PurchaseItems with
             | Some msg => Some msg
             | None => missing SetupDatabase.Products
             end
           else None
       end |}.

(** * Stores and rows that the statements use *)

(** The store [db], except that its [k]-th call raises. *)
Definition failing_at (k : nat) (msg : string) (db : Store) : Store :=
  {| customers := customers db;
     products := products db;
     purchases := purchases db;
     purchase_items := purchase_items db;
     failure := fun j => if Nat.eqb j k then Some msg else failure db j |}.

(** The store [db] with other rows in [customers]. *)
Definition with_customers (rows : list Schema.customer) (db : Store) : Store :=
  {| customers := rows;
     products := products db;
     purchases := purchases db;
     purchase_items := purchase_items db;
     failure := failure db |}.


(** The row [r] with other values in [garden_type] and [garden_interests]. *)
Definition with_garden (type interests : SqlValue) (r : Schema.customer)
  : Schema.customer :=
  {| Schema.customer_id := Schema.customer_id r;
     Schema.account_number := Schema.account_number r;
     Schema.customer_first_name := Schema.customer_first_name r;
     Schema.customer_last_name := Schema.customer_last_name r;
     Schema.email := Schema.email r;
     Schema.phone_number := Schema.phone_number r;
     Schema.customer_start_date := Schema.customer_start_date r;
     Schema.years_as_customer := Schema.years_as_customer r;
     Schema.billing_address_street := Schema.billing_address_street r;
     Schema.billing_address_city := Schema.billing_address_city r;
     Schema.billing_address_state := Schema.billing_address_state r;
     Schema.billing_address_zip := Schema.billing_address_zip r;
     Schema.loyalty_points := Schema.loyalty_points r;
     Schema.preferred_store := Schema.preferred_store r;
     Schema.comm_pref_email := Schema.comm_pref_email r;
     Schema.comm_pref_sms := Schema.comm_pref_sms r;
     Schema.comm_pref_push := Schema.comm_pref_push r;
     Schema.garden_type := type;
     Schema.garden_size := Schema.garden_size r;
     Schema.garden_sun_exposure := Schema.garden_sun_exposure r;
     Schema.garden_soil_type := Schema.garden_soil_type r;
     Schema.garden_interests := interests;
     Schema.scheduled_appointments := Schema.scheduled_appointments r |}.

(** The row [r] with another value in [scheduled_appointments]. *)
Definition with_appointments (v : SqlValue) (r : Schema.customer)
  : Schema.customer :=
  {| Schema.customer_id := Schema.customer_id r;
     Schema.account_number := Schema.account_number r;
     Schema.customer_first_name := Schema.customer_first_name r;
     Schema.customer_last_name := Schema.customer_last_name r;
     Schema.email := Schema.email r;
     Schema.phone_number := Schema.phone_number r;
     Schema.customer_start_date := Schema.customer_start_date r;
     Schema.years_as_customer := Schema.years_as_customer r;
     Schema.billing_address_street := Schema.billing_address_street r;
     Schema.billing_address_city := Schema.billing_address_city r;
     Schema.billing_address_state := Schema.billing_address_state r;
     Schema.billing_address_zip := Schema.billing_address_zip r;
     Schema.loyalty_points := Schema.loyalty_points r;
     Schema.preferred_store := Schema.preferred_store r;
     Schema.comm_pref_email := Schema.comm_pref_email r;
     Schema.comm_pref_sms := Schema.comm_pref_sms r;
     Schema.comm_pref_push := Schema.comm_pref_push r;
     Schema.garden_type := Schema.garden_type r;
     Schema.garden_size := Schema.garden_size r;
     Schema.garden_sun_exposure := Schema.garden_sun_exposure r;
     Schema.garden_soil_type := Schema.garden_soil_type r;
     Schema.garden_interests := Schema.garden_interests r;
     Schema.scheduled_appointments := v |}.

(** The keyword arguments [kw] with the columns of another row. *)
Definition with_columns (r : Schema.customer) (kw : CustomerData) : CustomerData :=
  {| columns := r;
     billing_address := billing_address kw;
     purchase_history := purchase_history kw;
     communication_preferences := communication_preferences kw;
     garden_profile := garden_profile kw |}.

(** The [str] made of the lone surrogate U+D800, and a TEXT of one byte
    that is no UTF-8. *)
Definition lone_surrogate : string :=
  String (ascii_of_N 237) (String (ascii_of_N 160) (String (ascii_of_N 128) EmptyString)).

Definition not_utf8 : string := String (ascii_of_N 255) EmptyString.

(** [s] between double quotes. *)
Definition quoted (s : string) : string :=
  String (ascii_of_N 34) (s ++ String (ascii_of_N 34) EmptyString).

Definition three_interests : list string :=
  [ "Organic Gardening"; "Composting"; "Herb Growing" ].

(** The serialized list of the three interests: an opening bracket, the
    three strings in double quotes separated by commas, a closing bracket. *)
Definition json_interests : string :=
  "[" ++ quoted "Organic Gardening" ++ "," ++ quoted "Composting" ++ ","
      ++ quoted "Herb Growing" ++ "]".

(** The seeded row, had [garden_interests] been stored the way
    [get_customer] reads it, as that JSON text; and the seeded store with
    this row. *)
Definition cust001_json : Schema.customer :=
  with_garden (SqlText "Vegetable Garden") (SqlText json_interests) Seed.cust001.

Definition db_json : Store := with_customers [cust001_json] Seed.db.

(** The seeded customer with an empty [garden_type], the other garden
    columns being as seeded; and the seeded store with this row. *)
Definition cust001_no_garden : Schema.customer :=
  with_garden (SqlText "") (Schema.garden_interests Seed.cust001) Seed.cust001.

Definition db_no_garden : Store := with_customers [cust001_no_garden] Seed.db.

(** The seeded store with the interests stored as JSON and a second
    purchase whose [total_amount] is the text n/a. *)
Definition db_bad_total : Store :=
  {| customers := [cust001_json];
     products := Seed.products_to_insert;
     purchases :=
       [ Seed.purchase 1 "2023-03-05" (Seed.double 5063734831024701 (-47));
         Seed.purchase 2 "2023-07-12" (SqlText "n/a");
         Seed.purchase 3 "2024-01-20" (Seed.double 7775746231631872 (-47)) ];
     purchase_items := Seed.sample_items;
     failure := fun _ => None |}.

(** The seeded store with the interests stored as JSON and a second
    purchase whose [total_amount] is [NULL]. *)
Definition db_null_total : Store :=
  {| customers := [cust001_json];
     products := Seed.products_to_insert;
     purchases :=
       [ Seed.purchase 1 "2023-03-05" (Seed.double 5063734831024701 (-47));
         Seed.purchase 2 "2023-07-12" SqlNull;
         Seed.purchase 3 "2024-01-20" (Seed.double 7775746231631872 (-47)) ];
     purchase_items := Seed.sample_items;
     failure := fun _ => None |}.

(** The purchase history of the seeded customer: the three purchases in the
    order of insertion, each with its two line items and the names of the
    catalogue.  The totals are 35.98, 42.50 and 55.25. *)
Definition seeded_history : list Purchase.t :=
  [ {| Purchase.date := "2023-03-05";
       Purchase.items :=
         [ {| Product.product_id := "fert-111";
              Product.name := "All-Purpose Fertilizer";
              Product.quantity := 1 |};
           {| Product.product_id := "trowel-222";
              Product.name := "Gardening Trowel";
              Product.quantity := 1 |} ];
       Purchase.total_amount := S754_finite false 5063734831024701 (-47) |};
    {| Purchase.date := "2023-07-12";
       Purchase.items :=
         [ {| Product.product_id := "seeds-333";
              Product.name := "Tomato Seeds (Variety Pack)";
              Product.quantity := 2 |};
           {| Product.product_id := "pots-444";
              Product.name := "Terracotta Pots (6-inch)";
              Product.quantity := 4 |} ];
       Purchase.total_amount := S754_finite false 5981343255101440 (-47) |};
    {| Purchase.date := "2024-01-20";
       Purchase.items :=
         [ {| Product.product_id := "gloves-555";
              Product.name := "Gardening Gloves (Leather)";
              Product.quantity := 1 |};
           {| Product.product_id := "pruner-666";
              Product.name := "Pruning Shears";
              Product.quantity := 1 |} ];
       Purchase.total_amount := S754_finite false 7775746231631872 (-47) |} ].

(** The lines that [setup_database.py] prints before it inserts. *)
Definition setup_lines : list string :=
  [ "Starting database setup...";
    "Creating 'customers' table...";
    "Creating 'products' table...";
    "Creating 'purchases' table...";
    "Creating 'purchase_items' table...";
    "Inserting sample data..." ].

(** The state in which the script ends when it got as far as its [try]
    statement: the connection is closed, no transaction is open, and the
    file holds [d]. *)
Definition done (d : SetupDatabase.DbFile) (calls : nat) (last_line : string)
  : SetupDatabase.World :=
  {| SetupDatabase.file := d;
     SetupDatabase.view := d;
     SetupDatabase.in_transaction := false;
     SetupDatabase.frame :=
       {| calls := calls; conn := Some Closed;
          stdout := (setup_lines ++ [last_line])%list |} |}.

(** * Notions that the statements use *)

(** A computation that leaves the local [conn] as it found it. *)
Definition keeps_conn {A} (m : Py A) : Prop :=
  forall f, conn (snd (m f)) = conn f.

(** Every store call made so far has succeeded. *)
Definition clean (db : Store) (f : Frame) : Prop :=
  forall k, (k < calls f)%nat -> failure db k = None.

(** What a computation can have done when it started with no failed call
    behind it: either there still is none, or the last call made is the one
    and only failed call and its [sqlite3.Error] is what was raised. *)
Inductive tracked (db : Store) {A : Type} : Result A * Frame -> Prop :=
| tracked_clean (r : Result A) (f' : Frame) :
    clean db f' -> tracked db (r, f')
| tracked_failed (msg : string) (f' : Frame) (k : nat) :
    calls f' = S k ->
    failure db k = Some msg ->
    (forall j, (j < k)%nat -> failure db j = None) ->
    tracked db (Raise (SqliteError msg), f').

(** A computation that keeps to this, from every such start. *)
Definition tracks (db : Store) {A} (m : Py A) : Prop :=
  forall f, clean db f -> tracked db (m f).

(** The frame on entry to the [try] statement ([conn = None]), and what the
    [except] and [finally] clauses make of the outcome of the [try] block. *)
Definition reset (f : Frame) : Frame :=
  {| calls := calls f; conn := None; stdout := stdout f |}.

Definition closed (f : Frame) : Frame :=
  {| calls := calls f;
     conn := match conn f with Some _ => Some Closed | None => None end;
     stdout := stdout f |}.

Definition logged (line : string) (f : Frame) : Frame :=
  {| calls := calls f; conn := conn f; stdout := (stdout f ++ [line])%list |}.

Definition finish (r : Result (option Customer.t)) (f : Frame)
  : Result (option Customer.t) * Frame :=
  match r with
  | Raise (SqliteError msg) => (Ok None, closed (logged (database_error_line msg) f))
  | _ => (r, closed f)
  end.

(** The outcome is the return of a [Customer]. *)
Definition returns_customer (r : Result (option Customer.t)) : bool :=
  match r with
  | Ok (Some _) => true
  | _ => false
  end.

(** A computation that does not end by returning a [Customer]. *)
Definition no_customer (m : Py (option Customer.t)) : Prop :=
  forall f, returns_customer (fst (m f)) = false.

(** A store none of whose calls fails. *)
Definition healthy (db : Store) : Prop := forall k, failure db k = None.

(** A row all of whose TEXT columns decode. *)
Definition decodes (columns : list (string * SqlValue)) : bool :=
  match undecodable columns with
  | None => true
  | Some _ => false
  end.

(** The lines joined to a purchase row all decode. *)
Definition items_decode (db : Store) (r : Schema.purchase) : bool :=
  forallb (fun i => decodes (Schema.item_columns i))
    (select_items db (Schema.purchase_id r)).

(** Every row that a fetch of [cid] converts decodes: the first row that the
    query on [customers] selects, the purchases of [cid] and their joined
    lines. *)
Definition readable (db : Store) (cid : string) : bool :=
  forallb (fun r => decodes (Schema.customer_columns r))
    (firstn 1 (select_customers db cid)) &&
  forallb (fun r => decodes (Schema.purchase_columns r)) (select_purchases db cid) &&
  forallb (items_decode db) (select_purchases db cid).

(** The frame after [n] more store calls. *)
Definition advance (n : nat) (f : Frame) : Frame :=
  {| calls := n + calls f; conn := conn f; stdout := stdout f |}.

(** The exceptions that come from turning stored values into objects:
    pydantic's validation and [json.loads]. *)
Definition construction_error (e : PyExc) : bool :=
  match e with
  | ValidationError | JSONDecodeError | UnicodeDecodeError | TypeError => true
  | SqliteError _ | UnicodeEncodeError | OverflowError | NameError => false
  end.

(** Two lists of customer rows that agree on every column but
    [scheduled_appointments]. *)
Definition same_but_appointments (rows rows' : list Schema.customer) : Prop :=
  map (with_appointments SqlNull) rows = map (with_appointments SqlNull) rows'.

(** A value that the [sqlite3] module can turn into a Python value: any
    value but a TEXT that is not well-formed UTF-8. *)
Definition decodable (v : SqlValue) : bool :=
  match v with
  | SqlText s => Utf8.valid s
  | _ => true
  end.

(** The [scheduled_appointments] of every row decodes. *)
Definition appointments_decode (rows : list Schema.customer) : bool :=
  forallb (fun r => decodable (Schema.scheduled_appointments r)) rows.

(** A computation that prints nothing. *)
Definition silent {A} (m : Py A) : Prop :=
  forall f, stdout (snd (m f)) = stdout f.

(** A computation that always ends in an exception. *)
Definition always_raises {A} (m : Py A) : Prop :=
  forall f, exists e, fst (m f) = Raise e.

(** A computation that makes at most [n] store calls, never winds the
    count of calls back, and whose value, when it returns one, satisfies
    [post]. *)
Definition costs {A} (n : nat) (post : A -> Prop) (m : Py A) : Prop :=
  forall f,
    (calls f <= calls (snd (m f)) <= calls f + n)%nat /\
    (forall a, fst (m f) = Ok a -> post a).

(** The line of [purchase_items] names a product of the catalogue. *)
Definition has_product (db : Store) (pi : Schema.purchase_item) : bool :=
  existsb (fun p => sql_eq (Schema.pi_product_id pi) (Schema.p_product_id p))
    (products db).

(** The store without the lines that name no product of the catalogue. *)
Definition without_orphans (db : Store) : Store :=
  {| customers := customers db;
     products := products db;
     purchases := purchases db;
     purchase_items := filter (has_product db) (purchase_items db);
     failure := failure db |}.

Section Notions.

Context {L : Library}.

(** What one turn of the loop computes from the rows it fetches. *)
Definition purchase_value (db : Store) (purchase_row : Schema.purchase)
  : Result Purchase.t :=
  and_then (products_of (select_items db (Schema.purchase_id purchase_row)))
    (fun items =>
       Purchase_init (Schema.date purchase_row) items
         (Schema.total_amount purchase_row)).

Fixpoint purchase_values (db : Store) (purchase_rows : list Schema.purchase)
  : Result (list Purchase.t) :=
  match purchase_rows with
  | [] => Ok []
  | r :: rest =>
      and_then (purchase_value db r) (fun p =>
      and_then (purchase_values db rest) (fun ps => Ok (p :: ps)))
  end.

(** What lines 100-155 compute from the row and the purchase tables. *)
Definition reconstruction (db : Store) (cid : string)
    (customer_row : Schema.customer) : Result (option Customer.t) :=
  and_then (Address_init (Schema.billing_address_street customer_row)
              (Schema.billing_address_city customer_row)
              (Schema.billing_address_state customer_row)
              (Schema.billing_address_zip customer_row)) (fun billing_address =>
  and_then (garden_profile_of customer_row) (fun garden_profile =>
  and_then (purchase_values db (select_purchases db cid)) (fun purchase_history =>
  and_then load_cls (fun _ =>
  and_then (Customer_init
              {| columns := customer_row;
                 billing_address := billing_address;
                 purchase_history := purchase_history;
                 communication_preferences := comm_prefs_of customer_row;
                 garden_profile := garden_profile |}) (fun customer =>
  Ok (Some customer)))))).

(** A billing address column that the validation of a [str] field
    rejects. *)
Definition malformed_address (row : Schema.customer) : Prop :=
  validate_str (Schema.billing_address_street row) = None \/
  validate_str (Schema.billing_address_city row) = None \/
  validate_str (Schema.billing_address_state row) = None \/
  validate_str (Schema.billing_address_zip row) = None.

(** With a truthy [garden_type]: interests that [json.loads] rejects or
    that are no list of strings, or a garden column that the validation of
    a [str] field rejects. *)
Definition malformed_garden (row : Schema.customer) : Prop :=
  py_bool (Schema.garden_type row) = true /\
  ((exists e, json_loads (Schema.garden_interests row) = Raise e) \/
   (exists j, json_loads (Schema.garden_interests row) = Ok j /\
              validate_str_list j = None) \/
   validate_str (Schema.garden_type row) = None \/
   validate_str (Schema.garden_size row) = None \/
   validate_str (Schema.garden_sun_exposure row) = None \/
   validate_str (Schema.garden_soil_type row) = None).

(** A line item one of whose three columns the validation of its field
    ([str], [str], [int]) rejects. *)
Definition malformed_item (item : Schema.item) : Prop :=
  validate_str (Schema.product_id item) = None \/
  validate_str (Schema.name item) = None \/
  validate_int (Schema.quantity item) = None.

(** A purchase whose [date] the validation of a [str] field rejects, whose
    [total_amount] the validation of a [float] field rejects, or one of
    whose line items is malformed. *)
Definition malformed_purchase (db : Store) (r : Schema.purchase) : Prop :=
  validate_str (Schema.date r) = None \/
  validate_float (Schema.total_amount r) = None \/
  Exists malformed_item (select_items db (Schema.purchase_id r)).

(** One of the fields that [get_customer] validates before it assembles
    the [Customer] is rejected, by pydantic or by [json.loads]. *)
Definition malformed (db : Store) (cid : string) (row : Schema.customer) : Prop :=
  malformed_address row \/
  malformed_garden row \/
  Exists (malformed_purchase db) (select_purchases db cid).

(** A line item and the [Product] made of it. *)
Definition product_matches (item : Schema.item) (p : Product.t)
  : Prop :=
  validate_str (Schema.product_id item) = Some (Product.product_id p) /\
  validate_str (Schema.name item) = Some (Product.name p) /\
  validate_int (Schema.quantity item) = Some (Product.quantity p).

(** A purchase row and the [Purchase] made of it and of its line items. *)
Definition purchase_matches (db : Store) (r : Schema.purchase)
    (p : Purchase.t) : Prop :=
  validate_str (Schema.date r) = Some (Purchase.date p) /\
  validate_float (Schema.total_amount r) = Some (Purchase.total_amount p) /\
  Forall2 product_matches (select_items db (Schema.purchase_id r))
    (Purchase.items p).

End Notions.

(** * Properties *)

(** ** The decoder has fuel enough *)

Section JsonFuel.

Import Json.

Lemma skip_ws_length s : (String.length (skip_ws s) <= String.length s)%nat.
Proof.
  induction s as [| c s IH]; simpl; [lia |].
  destruct (is_ws c); simpl; lia.
Qed.

Lemma strip_prefix_length p s r :
  strip_prefix p s = Some r ->
  (String.length r + String.length p = String.length s)%nat.
Proof.
  revert s. induction p as [| a p IH]; intros [| b s] H; simpl in *;
    try discriminate; try (inversion H; subst; simpl; lia).
  destruct (Ascii.eqb a b); [| discriminate].
  apply IH in H. lia.
Qed.

Lemma take_hex4_length s n r :
  take_hex4 s = Some (n, r) -> (String.length r + 4 = String.length s)%nat.
Proof.
  unfold take_hex4.
  destruct s as [| a [| b [| c [| d rest]]]]; try discriminate.
  destruct (hex_digit a), (hex_digit b), (hex_digit c), (hex_digit d);
    try discriminate.
  intro H; inversion H; subst. simpl. lia.
Qed.

Lemma scan_string_length fuel :
  forall s acc str r,
    scan_string fuel s acc = Some (str, r) ->
    (String.length r < String.length s)%nat.
Proof.
  induction fuel as [| fuel IH]; intros s acc str r H;
    [discriminate |].
  cbn [scan_string] in H.
  destruct s as [| c s']; [discriminate |].
  destruct (code c =? 34)%N.
  { inversion H; subst. simpl. lia. }
  destruct (code c <? 32)%N; [discriminate |].
  destruct (code c =? 92)%N.
  2:{ apply IH in H. simpl. lia. }
  destruct s' as [| e s'']; [discriminate |].
  destruct (code e =? 117)%N.
  2:{ destruct (simple_escape e); [| discriminate].
      apply IH in H. simpl. lia. }
  destruct (take_hex4 s'') as [[u r1] |] eqn:E1; [| discriminate].
  apply take_hex4_length in E1.
  destruct ((55296 <=? u) && (u <=? 56319))%N.
  2:{ apply IH in H. simpl. lia. }
  destruct (strip_prefix _ r1) as [r2 |] eqn:E2.
  2:{ apply IH in H. simpl. lia. }
  apply strip_prefix_length in E2. cbn [backslash_u String.length] in E2.
  destruct (take_hex4 r2) as [[u2 r3] |] eqn:E3; [| discriminate].
  apply take_hex4_length in E3.
  destruct ((56320 <=? u2) && (u2 <=? 57343))%N; apply IH in H; simpl; lia.
Qed.

Lemma span_digits_length s :
  (String.length (snd (span_digits s)) <= String.length s)%nat.
Proof.
  induction s as [| c s IH]; simpl; [lia |].
  destruct (is_digit c); simpl; [| lia].
  destruct (span_digits s) as [ds r]; simpl in *. lia.
Qed.

Lemma scan_int_length s i r :
  scan_int s = Some (i, r) -> (String.length r < String.length s)%nat.
Proof.
  unfold scan_int. destruct s as [| c s']; [discriminate |].
  destruct (code c =? 48)%N.
  { intro H; inversion H; subst. simpl. lia. }
  destruct (is_digit c); [| discriminate].
  pose proof (span_digits_length s') as Hs.
  destruct (span_digits s') as [ds r']; simpl in Hs.
  intro H; inversion H; subst. simpl. lia.
Qed.

Lemma scan_frac_length s :
  (String.length (snd (scan_frac s)) <= String.length s)%nat.
Proof.
  unfold scan_frac. destruct s as [| c r]; simpl; [lia |].
  destruct (code c =? 46)%N; simpl; [| lia].
  pose proof (span_digits_length r) as Hs.
  destruct (span_digits r) as [[| d ds] r']; simpl in *; lia.
Qed.

Lemma scan_exp_length s :
  (String.length (snd (scan_exp s)) <= String.length s)%nat.
Proof.
  unfold scan_exp. destruct s as [| c r]; simpl; [lia |].
  destruct ((code c =? 101) || (code c =? 69))%N; simpl; [| lia].
  destruct r as [| g r0].
  - simpl. lia.
  - destruct ((code g =? 43) || (code g =? 45))%N.
    + pose proof (span_digits_length r0) as Hs.
      destruct (span_digits r0) as [[| d ds] r']; simpl in *; lia.
    + pose proof (span_digits_length (String g r0)) as Hs.
      destruct (span_digits (String g r0)) as [[| d ds] r']; simpl in *; lia.
Qed.

Lemma scan_number_length s l r :
  scan_number s = Some (l, r) -> (String.length r < String.length s)%nat.
Proof.
  unfold scan_number.
  assert (H : forall s1, (String.length s1 <= String.length s)%nat ->
            match scan_int s1 with
            | Some (i, r1) =>
                let (f, r2) := scan_frac r1 in
                let (e, r3) := scan_exp r2 in
                (String.length r3 < String.length s)%nat
            | None => True
            end).
  { intros s1 H1. destruct (scan_int s1) as [[i r1] |] eqn:Ei; [| exact I].
    apply scan_int_length in Ei.
    pose proof (scan_frac_length r1) as Hf.
    destruct (scan_frac r1) as [f r2]; simpl in Hf.
    pose proof (scan_exp_length r2) as He.
    destruct (scan_exp r2) as [e r3]; simpl in He. lia. }
  destruct s as [| c r0].
  - simpl. discriminate.
  - destruct (code c =? 45)%N.
    + specialize (H r0 ltac:(simpl; lia)).
      destruct (scan_int r0) as [[i r1] |]; [| discriminate].
      destruct (scan_frac r1) as [f r2]. destruct (scan_exp r2) as [e r3].
      intro E; inversion E; subst. exact H.
    + specialize (H (String c r0) ltac:(lia)).
      destruct (scan_int (String c r0)) as [[i r1] |]; [| discriminate].
      destruct (scan_frac r1) as [f r2]. destruct (scan_exp r2) as [e r3].
      intro E; inversion E; subst. exact H.
Qed.

Lemma scan_keyword_length kws s v r :
  Forall (fun kv => fst kv <> EmptyString) kws ->
  scan_keyword kws s = Some (v, r) ->
  (String.length r < String.length s)%nat.
Proof.
  induction kws as [| [k w] kws IH]; intros Hk H; simpl in H; [discriminate |].
  inversion Hk as [| ? ? Hne Hrest]; subst. simpl in Hne.
  destruct (strip_prefix k s) as [r' |] eqn:E.
  - inversion H; subst. apply strip_prefix_length in E.
    destruct k; [contradiction | simpl in E; lia].
  - now apply IH.
Qed.

Lemma literals_nonempty : Forall (fun kv => fst kv <> EmptyString) literals.
Proof. repeat constructor; discriminate. Qed.

Lemma constants_nonempty : Forall (fun kv => fst kv <> EmptyString) constants.
Proof. repeat constructor; discriminate. Qed.

(** Every successful call of the scanner consumes at least one character. *)
Lemma scan_consumes fuel :
  (forall s v r, scan_once fuel s = Some (v, r) ->
                 (String.length r < String.length s)%nat) /\
  (forall s vs r, scan_elements fuel s = Some (vs, r) ->
                  (String.length r < String.length s)%nat) /\
  (forall s ms r, scan_members fuel s = Some (ms, r) ->
                  (String.length r < String.length s)%nat).
Proof.
  induction fuel as [| fuel [IHo [IHe IHm]]].
  { repeat split; intros; discriminate. }
  repeat split.
  - intros s v r H. cbn [scan_once] in H.
    destruct s as [| c s']; [discriminate |].
    destruct (code c =? 34)%N.
    { destruct (scan_string _ s' EmptyString) as [[str r0] |] eqn:E;
        [| discriminate].
      inversion H; subst. apply scan_string_length in E. simpl. lia. }
    destruct (code c =? 123)%N.
    { pose proof (skip_ws_length s') as Hw.
      destruct (skip_ws s') as [| d r0]; [discriminate |].
      destruct (code d =? 125)%N.
      - inversion H; subst. simpl in *. lia.
      - destruct (scan_members fuel (String d r0)) as [[ms r'] |] eqn:Em;
          [| discriminate].
        inversion H; subst. apply IHm in Em. simpl in *. lia. }
    destruct (code c =? 91)%N.
    { pose proof (skip_ws_length s') as Hw.
      destruct (skip_ws s') as [| d r0]; [discriminate |].
      destruct (code d =? 93)%N.
      - inversion H; subst. simpl in *. lia.
      - destruct (scan_elements fuel (String d r0)) as [[vs r'] |] eqn:Ee;
          [| discriminate].
        inversion H; subst. apply IHe in Ee. simpl in *. lia. }
    destruct (scan_keyword literals (String c s')) as [[v0 r0] |] eqn:Ek.
    { inversion H; subst.
      exact (scan_keyword_length _ _ _ _ literals_nonempty Ek). }
    destruct (scan_number (String c s')) as [[l r0] |] eqn:En.
    { inversion H; subst. exact (scan_number_length _ _ _ En). }
    exact (scan_keyword_length _ _ _ _ constants_nonempty H).
  - intros s vs r H. cbn [scan_elements] in H.
    destruct (scan_once fuel s) as [[v r0] |] eqn:Eo; [| discriminate].
    apply IHo in Eo.
    pose proof (skip_ws_length r0) as Hw.
    destruct (skip_ws r0) as [| d r']; [discriminate |].
    destruct (code d =? 93)%N.
    { inversion H; subst. simpl in *. lia. }
    destruct (code d =? 44)%N; [| discriminate].
    pose proof (skip_ws_length r') as Hw'.
    destruct (scan_elements fuel (skip_ws r')) as [[vs' r''] |] eqn:Ee;
      [| discriminate].
    inversion H; subst. apply IHe in Ee. simpl in *. lia.
  - intros s ms r H. cbn [scan_members] in H.
    destruct s as [| q s']; [discriminate |].
    destruct (code q =? 34)%N; [| discriminate].
    destruct (scan_string _ s' EmptyString) as [[key r0] |] eqn:Es;
      [| discriminate].
    apply scan_string_length in Es.
    pose proof (skip_ws_length r0) as Hw.
    destruct (skip_ws r0) as [| colon r1]; [discriminate |].
    destruct (code colon =? 58)%N; [| discriminate].
    pose proof (skip_ws_length r1) as Hw1.
    destruct (scan_once fuel (skip_ws r1)) as [[v r2] |] eqn:Eo; [| discriminate].
    apply IHo in Eo.
    pose proof (skip_ws_length r2) as Hw2.
    destruct (skip_ws r2) as [| d r3]; [discriminate |].
    destruct (code d =? 125)%N.
    { inversion H; subst. simpl in *. lia. }
    destruct (code d =? 44)%N; [| discriminate].
    pose proof (skip_ws_length r3) as Hw3.
    destruct (scan_members fuel (skip_ws r3)) as [[ms' r4] |] eqn:Em;
      [| discriminate].
    inversion H; subst. apply IHm in Em. simpl in *. lia.
Qed.

(** Beyond twice the length of the text, more fuel changes nothing. *)
Lemma scan_fuel_irrelevant fuel :
  (forall s fuel',
      (2 * String.length s <= fuel)%nat -> (2 * String.length s <= fuel')%nat ->
      scan_once fuel s = scan_once fuel' s) /\
  (forall s fuel',
      (2 * String.length s + 1 <= fuel)%nat ->
      (2 * String.length s + 1 <= fuel')%nat ->
      scan_elements fuel s = scan_elements fuel' s) /\
  (forall s fuel',
      (2 * String.length s + 1 <= fuel)%nat ->
      (2 * String.length s + 1 <= fuel')%nat ->
      scan_members fuel s = scan_members fuel' s).
Proof.
  induction fuel as [| fuel [IHo [IHe IHm]]].
  { repeat split; intros s fuel' H H'; try lia.
    destruct s; [| simpl in H; lia]. destruct fuel'; reflexivity. }
  repeat split.
  - intros s fuel' H H'.
    destruct s as [| c s']; [destruct fuel'; reflexivity |].
    destruct fuel' as [| fuel']; [simpl in H'; lia |].
    cbn [scan_once]. cbn [String.length] in H, H'.
    pose proof (skip_ws_length s') as Hw.
    destruct (code c =? 34)%N; [reflexivity |].
    destruct (code c =? 123)%N.
    { destruct (skip_ws s') as [| d r0]; [reflexivity |].
      destruct (code d =? 125)%N; [reflexivity |].
      rewrite (IHm (String d r0) fuel') by lia. reflexivity. }
    destruct (code c =? 91)%N.
    { destruct (skip_ws s') as [| d r0]; [reflexivity |].
      destruct (code d =? 93)%N; [reflexivity |].
      rewrite (IHe (String d r0) fuel') by lia. reflexivity. }
    reflexivity.
  - intros s fuel' H H'.
    destruct fuel' as [| fuel']; [lia |].
    cbn [scan_elements].
    rewrite (IHo s fuel') by lia.
    destruct (scan_once fuel' s) as [[v r0] |] eqn:Eo; [| reflexivity].
    apply (proj1 (scan_consumes fuel')) in Eo.
    pose proof (skip_ws_length r0) as Hw.
    destruct (skip_ws r0) as [| d r']; [reflexivity |].
    destruct (code d =? 93)%N; [reflexivity |].
    destruct (code d =? 44)%N; [| reflexivity].
    pose proof (skip_ws_length r') as Hw'. cbn [String.length] in Hw.
    rewrite (IHe (skip_ws r') fuel') by lia. reflexivity.
  - intros s fuel' H H'.
    destruct fuel' as [| fuel']; [lia |].
    cbn [scan_members].
    destruct s as [| q s']; [reflexivity |].
    destruct (code q =? 34)%N; [| reflexivity].
    destruct (scan_string _ s' EmptyString) as [[key r0] |] eqn:Es;
      [| reflexivity].
    apply scan_string_length in Es.
    pose proof (skip_ws_length r0) as Hw.
    destruct (skip_ws r0) as [| colon r1]; [reflexivity |].
    destruct (code colon =? 58)%N; [| reflexivity].
    pose proof (skip_ws_length r1) as Hw1.
    cbn [String.length] in H, H', Hw.
    rewrite (IHo (skip_ws r1) fuel') by lia.
    destruct (scan_once fuel' (skip_ws r1)) as [[v r2] |] eqn:Eo; [| reflexivity].
    apply (proj1 (scan_consumes fuel')) in Eo.
    pose proof (skip_ws_length r2) as Hw2.
    destruct (skip_ws r2) as [| d r3]; [reflexivity |].
    destruct (code d =? 125)%N; [reflexivity |].
    destruct (code d =? 44)%N; [| reflexivity].
    pose proof (skip_ws_length r3) as Hw3. cbn [String.length] in Hw2.
    rewrite (IHm (skip_ws r3) fuel') by lia. reflexivity.
Qed.

(** [json.loads] never fails for want of fuel: with any larger amount the
    decoder gives the same answer. *)
Theorem loads_fuel_suffices :
  forall (s : string) (fuel : nat),
    (2 * String.length s + 2 <= fuel)%nat ->
    Json.loads s =
    match scan_once fuel (skip_ws s) with
    | Some (v, r) =>
        match skip_ws r with
        | EmptyString => Some v
        | String _ _ => None
        end
    | None => None
    end.
Proof.
  intros s fuel H. unfold Json.loads.
  pose proof (skip_ws_length s) as Hw.
  rewrite (proj1 (scan_fuel_irrelevant (2 * String.length s + 2))
             (skip_ws s) fuel) by lia.
  reflexivity.
Qed.

End JsonFuel.

(** ** How the frame evolves *)

Create HintDb frame.

Lemma keeps_conn_ret {A} (a : A) : keeps_conn (ret a).
Proof. intro f; reflexivity. Qed.

Lemma keeps_conn_raise {A} (e : PyExc) : keeps_conn (@raise A e).
Proof. intro f; reflexivity. Qed.

Lemma keeps_conn_lift {A} (r : Result A) : keeps_conn (lift r).
Proof. intro f; reflexivity. Qed.

Lemma keeps_conn_print (line : string) : keeps_conn (print line).
Proof. intro f; reflexivity. Qed.

Lemma keeps_conn_store_call (db : Store) : keeps_conn (store_call db).
Proof. intro f; unfold store_call; destruct (failure db (calls f)); reflexivity. Qed.

Lemma keeps_conn_bind {A B} (m : Py A) (k : A -> Py B) :
  keeps_conn m -> (forall a, keeps_conn (k a)) -> keeps_conn (bind m k).
Proof.
  intros Hm Hk f. unfold bind. specialize (Hm f).
  destruct (m f) as [[a | e] f']; simpl in *.
  - rewrite Hk. exact Hm.
  - exact Hm.
Qed.

Lemma keeps_conn_for_each {A B} (body : A -> Py B) (l : list A) :
  (forall a, keeps_conn (body a)) -> keeps_conn (for_each body l).
Proof.
  intro Hb. induction l as [| x l IH]; simpl.
  - apply keeps_conn_ret.
  - apply keeps_conn_bind; [apply Hb |]. intro y.
    apply keeps_conn_bind; [exact IH |]. intro ys. apply keeps_conn_ret.
Qed.

#[local] Hint Resolve keeps_conn_ret keeps_conn_raise keeps_conn_lift
  keeps_conn_print keeps_conn_store_call : frame.

Ltac frame_step :=
  first [ apply keeps_conn_bind; [| intro ]
        | apply keeps_conn_for_each; intro
        | solve [auto with frame] ].

Section FrameLemmas.

Context {L : Library}.

Lemma keeps_conn_execute {A} db p (select : string -> list A) :
  keeps_conn (execute db p select).
Proof. unfold execute. repeat frame_step. Qed.

Lemma keeps_conn_decode_row {A} (columns : A -> list (string * SqlValue)) row :
  keeps_conn (decode_row columns row).
Proof.
  unfold decode_row. destruct (undecodable (columns row)) as [[c t] |];
    auto with frame.
Qed.

Lemma keeps_conn_fetchall {A} db columns (rows : list A) :
  keeps_conn (fetchall db columns rows).
Proof.
  unfold fetchall. repeat first [ apply keeps_conn_decode_row | frame_step ].
Qed.

Lemma keeps_conn_fetchone {A} db columns (rows : list A) :
  keeps_conn (fetchone db columns rows).
Proof.
  unfold fetchone. destruct rows;
    repeat first [ apply keeps_conn_decode_row | frame_step ].
Qed.

Lemma keeps_conn_purchase_of db purchase_row : keeps_conn (purchase_of db purchase_row).
Proof.
  unfold purchase_of.
  repeat first [ apply keeps_conn_fetchall | frame_step ].
Qed.

Lemma keeps_conn_reconstruct db p row : keeps_conn (reconstruct db p row).
Proof.
  unfold reconstruct, customer_data_of.
  repeat first [ apply keeps_conn_fetchall | apply keeps_conn_execute
               | apply keeps_conn_purchase_of | frame_step ].
Qed.

(** After [connect] the rest of the [try] block never rebinds [conn]. *)
Lemma keeps_conn_after_connect db p :
  keeps_conn (store_call db ;;
              rows <- execute db p (select_customers db) ;;
              customer_row <- fetchone db Schema.customer_columns rows ;;
              match customer_row with
              | None =>
                  print (not_found_line p) ;;
                  ret None
              | Some customer_row => reconstruct db p customer_row
              end).
Proof.
  repeat first [ apply keeps_conn_fetchone | apply keeps_conn_execute | frame_step ].
  match goal with |- keeps_conn (match ?o with _ => _ end) => destruct o end;
    [apply keeps_conn_reconstruct | repeat frame_step].
Qed.

Lemma keeps_conn_handler e h :
  except_sqlite_error e = Some h -> keeps_conn h.
Proof.
  destruct e; simpl; intro H; inversion H; subst. repeat frame_step.
Qed.

End FrameLemmas.

(** ** The connection is closed on every way out *)

Lemma try_except_conn {L : Library} {A} (m : Py A) handler f :
  (forall e h, handler e = Some h -> keeps_conn h) ->
  conn (snd (try_except m handler f)) = conn (snd (m f)).
Proof.
  intro Hh. unfold try_except.
  destruct (m f) as [[a | e] f']; simpl; [reflexivity |].
  destruct (handler e) as [h |] eqn:E; [| reflexivity].
  apply (Hh e h E).
Qed.

Lemma try_block_conn {L : Library} db p f :
  conn (snd (try_block db p f)) =
  match failure db (calls f) with
  | Some _ => conn f
  | None => Some Open
  end.
Proof.
  unfold try_block, connect.
  unfold bind at 1. unfold bind at 1. unfold store_call at 1.
  destruct (failure db (calls f)) as [msg |]; simpl; [reflexivity |].
  rewrite (keeps_conn_after_connect db p). reflexivity.
Qed.

(** C8.  Whatever the store holds, whichever call fails and whatever the
    argument is, when [get_customer] is done the local [conn] is either
    [None] (because [sqlite3.connect] itself failed, so nothing was opened)
    or a connection that has been closed; it is never left open.  This
    covers the return of [None] for a missing row, the caught
    [sqlite3.Error], and every exception that leaves the function. *)
Theorem connection_closed_on_every_exit :
  forall (L : Library) (db : Store) (customer_id : PyObj) (f : Frame),
    conn (snd (get_customer db customer_id f)) =
    match failure db (calls f) with
    | Some _ => None
    | None => Some Closed
    end.
Proof.
  intros L db p f. unfold get_customer.
  unfold bind at 1. simpl.
  set (f0 := {| calls := calls f; conn := None; stdout := stdout f |}).
  unfold try_finally.
  destruct (try_except (try_block db p) except_sqlite_error f0) as [r f1] eqn:E.
  assert (Hc : conn f1 =
               match failure db (calls f) with Some _ => None | None => Some Open end).
  { change f1 with (snd (r, f1)). rewrite <- E.
    rewrite try_except_conn by (intros e h; apply keeps_conn_handler).
    rewrite try_block_conn. reflexivity. }
  unfold close_if_connected.
  destruct (failure db (calls f)); rewrite Hc; simpl; [exact Hc | reflexivity].
Qed.

(** ** Store failures *)

Lemma tracks_ret db {A} (a : A) : tracks db (ret a).
Proof. intros f Hf. now apply tracked_clean. Qed.

Lemma tracks_raise db {A} (e : PyExc) : tracks db (@raise A e).
Proof. intros f Hf. now apply tracked_clean. Qed.

Lemma tracks_lift db {A} (r : Result A) : tracks db (lift r).
Proof. intros f Hf. now apply tracked_clean. Qed.

Lemma tracks_print db (line : string) : tracks db (print line).
Proof. intros f Hf. now apply tracked_clean. Qed.

Lemma tracks_set_conn db (c : option Conn) : tracks db (set_conn c).
Proof. intros f Hf. now apply tracked_clean. Qed.

Lemma tracks_store_call db : tracks db (store_call db).
Proof.
  intros f Hf. unfold store_call.
  destruct (failure db (calls f)) as [msg |] eqn:E.
  - apply tracked_failed with (k := calls f); auto.
  - apply tracked_clean. intros k Hk. simpl in Hk.
    destruct (Nat.eq_dec k (calls f)) as [-> | Hne]; [exact E |].
    apply Hf. lia.
Qed.

Lemma tracks_bind db {A B} (m : Py A) (k : A -> Py B) :
  tracks db m -> (forall a, tracks db (k a)) -> tracks db (bind m k).
Proof.
  intros Hm Hk f Hf. unfold bind. specialize (Hm f Hf).
  inversion Hm as [r f' Hc Heq | msg f' j H1 H2 H3 Heq]; subst.
  - destruct r as [a | e].
    + apply Hk. exact Hc.
    + now apply tracked_clean.
  - eapply tracked_failed; eauto.
Qed.

Lemma tracks_for_each db {A B} (body : A -> Py B) (l : list A) :
  (forall a, tracks db (body a)) -> tracks db (for_each body l).
Proof.
  intro Hb. induction l as [| x l IH]; simpl.
  - apply tracks_ret.
  - apply tracks_bind; [apply Hb |]. intro y.
    apply tracks_bind; [exact IH |]. intro ys. apply tracks_ret.
Qed.

Lemma tracks_decode_row {L : Library} db {A}
    (columns : A -> list (string * SqlValue)) row :
  tracks db (decode_row columns row).
Proof.
  unfold decode_row. destruct (undecodable (columns row)) as [[c t] |];
    [apply tracks_raise | apply tracks_ret].
Qed.

Ltac track_step :=
  first [ apply tracks_bind; [| intro ]
        | apply tracks_decode_row
        | apply tracks_for_each; intro
        | apply tracks_ret | apply tracks_raise | apply tracks_lift
        | apply tracks_print | apply tracks_set_conn | apply tracks_store_call ].

Lemma tracks_try_block {L : Library} db p : tracks db (try_block db p).
Proof.
  unfold try_block, connect, execute, fetchone.
  repeat track_step.
  - match goal with |- tracks _ (match ?x with _ => _ end) => destruct x end;
      repeat track_step.
  - match goal with |- tracks _ (match ?x with _ => _ end) => destruct x end.
    + unfold reconstruct, customer_data_of, execute, fetchall. repeat track_step.
    + repeat track_step.
Qed.

Lemma get_customer_eq {L : Library} db p f :
  get_customer db p f =
  finish (fst (try_block db p (reset f))) (snd (try_block db p (reset f))).
Proof.
  unfold get_customer, try_finally, try_except, close_if_connected.
  unfold bind at 1. cbn [set_conn]. fold (reset f).
  destruct (try_block db p (reset f)) as [[a | e] [n c so]]; cbn [fst snd finish].
  - destruct c; reflexivity.
  - destruct e; cbn; destruct c; reflexivity.
Qed.

(** The [except] clause catches every [sqlite3.Error], and neither it nor
    the [finally] clause raises: no such error leaves the function. *)
Lemma no_sqlite_error_escapes {L : Library} db p f msg :
  fst (get_customer db p f) <> Raise (SqliteError msg).
Proof.
  rewrite get_customer_eq.
  destruct (fst (try_block db p (reset f))) as [a | e]; [discriminate |].
  destruct e; discriminate.
Qed.

Lemma last_snoc {A} (l : list A) (x d : A) : last (l ++ [x])%list d = x.
Proof.
  induction l as [| y l IH]; simpl; [reflexivity |].
  destruct (l ++ [x])%list eqn:E; [now destruct l | exact IH].
Qed.

(** C2.  Take any store and any argument, and run [get_customer].  No
    [sqlite3.Error] leaves the call.  And if any store call made during the
    run failed (opening the connection or a later query), the call returns
    [None], as for a customer that is not there, and the last line printed
    is the log line [Database error:] followed by the message of that
    error. *)
Theorem store_failure_is_caught_and_logged :
  forall (L : Library) (db : Store) (customer_id : PyObj),
    let out := get_customer db customer_id entry in
    (forall msg, fst out <> Raise (SqliteError msg)) /\
    (forall k msg,
        (k < calls (snd out))%nat ->
        failure db k = Some msg ->
        fst out = Ok None /\
        last (stdout (snd out)) "" = database_error_line msg).
Proof.
  intros L db p out. split.
  - intro msg. apply no_sqlite_error_escapes.
  - subst out. rewrite get_customer_eq.
    assert (H0 : clean db (reset entry)) by (intros k Hk; simpl in Hk; lia).
    pose proof (tracks_try_block db p _ H0) as Ht.
    destruct (try_block db p (reset entry)) as [r f'].
    cbn [fst snd]. intros k msg Hk Hfail.
    inversion Ht as [r0 f0' Hc Heq | msg0 f0' j H1 H2 H3 Heq]; subst.
    + (* no call has failed *)
      exfalso.
      assert (Hk' : (k < calls f')%nat).
      { revert Hk. destruct r as [a | e]; [| destruct e]; cbn; auto. }
      rewrite (Hc k Hk') in Hfail. discriminate.
    + (* the last call made failed with [msg0] *)
      cbn in Hk. rewrite H1 in Hk.
      assert (k = j).
      { destruct (Nat.eq_dec k j) as [| Hne]; [assumption |].
        rewrite H3 in Hfail by lia. discriminate. }
      subst k. rewrite H2 in Hfail. inversion Hfail; subst msg0.
      cbn [finish fst snd closed logged stdout]. split; [reflexivity |].
      apply last_snoc.
Qed.

(** The third call, the query on [customers], fails on a database file in
    which the tables were never created. *)
Lemma store_failure_witness :
  let out := get_customer (L := uncoerced)
               (failing_at 2 "no such table: customers" Seed.db)
               (ObjStr "CUST001") entry in
  fst out = Ok None /\
  last (stdout (snd out)) "" = "Database error: no such table: customers".
Proof.
  apply (proj2 (store_failure_is_caught_and_logged uncoerced
                  (failing_at 2 "no such table: customers" Seed.db)
                  (ObjStr "CUST001")) 2%nat).
  - vm_compute. lia.
  - reflexivity.
Defined.

(** ** A customer that is not there *)

Lemma bind_parameter_bindable s :
  bindable s = true -> bind_parameter (ObjStr s) = Ok s.
Proof.
  unfold bindable, bind_parameter. intro H.
  apply andb_true_iff in H as [Hv Hl]. rewrite Hv. cbn [negb].
  apply N.leb_le in Hl.
  assert (H1 : (INT_MAX <? N.of_nat (String.length s))%N = false).
  { apply N.ltb_ge. unfold INT_MAX, SQLITE_MAX_LENGTH in *. lia. }
  assert (H2 : (SQLITE_MAX_LENGTH <? N.of_nat (String.length s))%N = false).
  { apply N.ltb_ge. exact Hl. }
  rewrite H1, H2. reflexivity.
Qed.

Lemma bind_parameter_surrogate s :
  Utf8.valid s = false -> bind_parameter (ObjStr s) = Raise UnicodeEncodeError.
Proof. unfold bind_parameter. intro H. rewrite H. reflexivity. Qed.

(** What binding a [str] raises, when it raises. *)
Lemma bind_parameter_raises s e :
  bind_parameter (ObjStr s) = Raise e ->
  e = UnicodeEncodeError \/ e = OverflowError \/
  e = SqliteError "string or blob too big".
Proof.
  unfold bind_parameter.
  destruct (negb (Utf8.valid s)); [intro H; inversion H; auto |].
  destruct (INT_MAX <? _)%N; [intro H; inversion H; auto |].
  destruct (SQLITE_MAX_LENGTH <? _)%N; intro H; inversion H; auto.
Qed.

Lemma bind_parameter_ok p s : bind_parameter p = Ok s -> p = ObjStr s.
Proof.
  destruct p as [t |]; [| discriminate]. unfold bind_parameter.
  destruct (negb (Utf8.valid t)); [discriminate |].
  destruct (INT_MAX <? _)%N; [discriminate |].
  destruct (SQLITE_MAX_LENGTH <? _)%N; [discriminate |].
  intro H. inversion H. reflexivity.
Qed.

(** The first [n] store calls from the frame [f] on succeed. *)
Ltac first_calls H n :=
  let rec go k :=
    lazymatch k with
    | O => idtac
    | S ?k' =>
        let Hk := fresh "Hcall" in
        pose proof (H k' ltac:(lia)) as Hk;
        cbn [Nat.add] in Hk;
        go k'
    end in
  go n.

Lemma try_block_not_found {L : Library} db cid f :
  (forall k, (k < 4)%nat -> failure db (k + calls f) = None) ->
  bindable cid = true ->
  select_customers db cid = [] ->
  try_block db (ObjStr cid) f =
  (Ok None,
   {| calls := 4 + calls f; conn := Some Open;
      stdout := (stdout f ++ [not_found_line (ObjStr cid)])%list |}).
Proof.
  intros H Hb Hsel. first_calls H 4%nat.
  unfold try_block, connect, execute, fetchone, bind, store_call, set_conn,
    lift, ret, print.
  rewrite (bind_parameter_bindable cid Hb).
  cbn [calls conn stdout].
  rewrite Hcall2. cbn [calls conn stdout]. rewrite Hcall1. cbn [calls conn stdout].
  rewrite Hcall0. cbn [calls conn stdout]. rewrite Hcall. cbn [calls conn stdout].
  rewrite Hsel. reflexivity.
Qed.

Lemma try_block_no_row {L : Library} db cid f :
  bindable cid = true ->
  select_customers db cid = [] ->
  fst (try_block db (ObjStr cid) f) = Ok None \/
  exists msg, fst (try_block db (ObjStr cid) f) = Raise (SqliteError msg).
Proof.
  intros Hb Hsel.
  unfold try_block, connect, execute, fetchone, bind, store_call, set_conn,
    lift, ret, print.
  rewrite (bind_parameter_bindable cid Hb).
  cbn [calls conn stdout].
  destruct (failure db (calls f)) as [m |]; [right; now exists m |].
  cbn [calls conn stdout].
  destruct (failure db (S (calls f))) as [m |]; [right; now exists m |].
  cbn [calls conn stdout].
  destruct (failure db (S (S (calls f)))) as [m |]; [right; now exists m |].
  cbn [calls conn stdout].
  destruct (failure db (S (S (S (calls f))))) as [m |]; [right; now exists m |].
  rewrite Hsel. left. reflexivity.
Qed.

(** An identifier that does not encode stops the [try] block at its third
    call, before any row is looked for. *)
Lemma try_block_surrogate {L : Library} db cid f :
  (forall k, (k < 3)%nat -> failure db (k + calls f) = None) ->
  Utf8.valid cid = false ->
  try_block db (ObjStr cid) f =
  (Raise UnicodeEncodeError,
   {| calls := 3 + calls f; conn := Some Open; stdout := stdout f |}).
Proof.
  intros H Hv. first_calls H 3%nat.
  unfold try_block, connect, execute, fetchone, bind, store_call, set_conn,
    lift, ret, print.
  rewrite (bind_parameter_surrogate cid Hv).
  cbn [calls conn stdout].
  rewrite Hcall1. cbn [calls conn stdout]. rewrite Hcall0. cbn [calls conn stdout].
  rewrite Hcall. reflexivity.
Qed.

(** C3 (what the code does instead).  Take a [customer_id] that no row of
    [customers] has.  The call [Customer.get_customer(customer_id)] does
    not return [None]: it raises [TypeError] before the body runs, as it
    does for every argument.  The body itself, given the identifier, does
    return [None] when the identifier is a text that [sqlite3] binds,
    whatever the store does, and then, when its four store calls succeed,
    it only prints the not-found line and closes the connection; but for an
    identifier that does not encode to UTF-8 (a [str] with a surrogate) it
    raises [UnicodeEncodeError] from the third call. *)
Theorem absent_customer_raises_type_error :
  forall (L : Library) (db : Store) (cid : string),
    select_customers db cid = [] ->
    Customer_get_customer db [ObjStr cid] entry = (Raise TypeError, entry) /\
    (bindable cid = true ->
     fst (get_customer db (ObjStr cid) entry) = Ok None /\
     ((forall k, (k < 4)%nat -> failure db k = None) ->
      snd (get_customer db (ObjStr cid) entry) =
      {| calls := 4; conn := Some Closed;
         stdout := [not_found_line (ObjStr cid)] |})) /\
    (Utf8.valid cid = false ->
     (forall k, (k < 3)%nat -> failure db k = None) ->
     get_customer db (ObjStr cid) entry =
     (Raise UnicodeEncodeError,
      {| calls := 3; conn := Some Closed; stdout := [] |})).
Proof.
  intros L db cid Hsel. split; [reflexivity | split].
  - intro Hb. rewrite get_customer_eq. split.
    + destruct (try_block_no_row db cid (reset entry) Hb Hsel) as [-> | [msg ->]];
        reflexivity.
    + intro H. rewrite (try_block_not_found db cid (reset entry)); auto.
      intros k Hk. cbn [reset entry calls]. rewrite Nat.add_0_r. auto.
  - intros Hv H. rewrite get_customer_eq.
    rewrite (try_block_surrogate db cid (reset entry)); auto.
    intros k Hk. cbn [reset entry calls]. rewrite Nat.add_0_r. auto.
Qed.

(** No customer of the seeded store is called CUST002, and none has the
    lone surrogate U+D800 for its identifier. *)
Lemma absent_customer_witness :
  Customer_get_customer (L := uncoerced) Seed.db [ObjStr "CUST002"] entry =
    (Raise TypeError, entry) /\
  get_customer (L := uncoerced) Seed.db (ObjStr "CUST002") entry =
    (Ok None,
     {| calls := 4; conn := Some Closed;
        stdout := [not_found_line (ObjStr "CUST002")] |}) /\
  get_customer (L := uncoerced) Seed.db (ObjStr lone_surrogate) entry =
    (Raise UnicodeEncodeError,
     {| calls := 3; conn := Some Closed; stdout := [] |}).
Proof.
  destruct (absent_customer_raises_type_error uncoerced Seed.db "CUST002" eq_refl)
    as [H1 [H2 _]].
  destruct (H2 eq_refl) as [H3 H4]. specialize (H4 (fun _ _ => eq_refl)).
  destruct (absent_customer_raises_type_error uncoerced Seed.db lone_surrogate
              eq_refl) as [_ [_ H5]].
  split; [exact H1 | split].
  - rewrite (surjective_pairing (get_customer Seed.db (ObjStr "CUST002") entry)).
    rewrite H3, H4. reflexivity.
  - exact (H5 eq_refl (fun _ _ => eq_refl)).
Defined.

(** ** Communication preferences *)





(** ** No [Customer] is ever returned *)

Lemma no_customer_bind {A} (m : Py A) (k : A -> Py (option Customer.t)) :
  (forall a, no_customer (k a)) -> no_customer (bind m k).
Proof.
  intros Hk f. unfold bind.
  destruct (m f) as [[a | e] f']; [apply Hk | reflexivity].
Qed.

(** The name [cls] is bound nowhere. *)
Lemma load_cls_fails : load_cls = Raise NameError.
Proof. reflexivity. Qed.

Lemma no_customer_reconstruct {L : Library} db p row :
  no_customer (reconstruct db p row).
Proof.
  unfold reconstruct.
  apply no_customer_bind; intro.
  rewrite load_cls_fails. intro f. reflexivity.
Qed.

Lemma no_customer_try_block {L : Library} db p : no_customer (try_block db p).
Proof.
  unfold try_block.
  do 4 (apply no_customer_bind; intro).
  match goal with |- no_customer (match ?x with _ => _ end) => destruct x end.
  - apply no_customer_reconstruct.
  - intro f. reflexivity.
Qed.

(** C1 (what the code does instead).  However it is called, [get_customer]
    does not return a [Customer]: the function itself, given a value for
    [customer_id], never ends with one, because the last statement of the
    [try] block evaluates the unbound name [cls]; and the attribute call
    [Customer.get_customer(x)] with one argument does not even start,
    because the class is passed as well and the function has a single
    parameter. *)
Theorem get_customer_never_returns_a_customer :
  forall (L : Library) (db : Store) (f : Frame),
    (forall customer_id,
        returns_customer (fst (get_customer db customer_id f)) = false) /\
    (forall x, Customer_get_customer db [x] f = (Raise TypeError, f)).
Proof.
  intros L db f. split.
  - intro p. rewrite get_customer_eq.
    pose proof (no_customer_try_block db p (reset f)) as H.
    destruct (fst (try_block db p (reset f))) as [[c |] | e];
      [discriminate | reflexivity | destruct e; reflexivity].
  - intro x. reflexivity.
Qed.

(** ** Evaluating the constructors on values of the right type *)

Section Evaluation.

Context {L : Library}.

Lemma Address_init_text a b c d :
  Address_init (SqlText a) (SqlText b) (SqlText c) (SqlText d) =
  Ok {| Address.street := a; Address.city := b;
        Address.state := c; Address.zip := d |}.
Proof. unfold Address_init. now rewrite !validate_str_text. Qed.

Lemma GardenProfile_init_text a b c d l ss :
  all_strings l = Some ss ->
  GardenProfile_init (SqlText a) (SqlText b) (SqlText c) (SqlText d) (Json.JArray l) =
  Ok {| GardenProfile.type := a; GardenProfile.size := b;
        GardenProfile.sun_exposure := c; GardenProfile.soil_type := d;
        GardenProfile.interests := ss |}.
Proof.
  intro H. unfold GardenProfile_init. rewrite !validate_str_text.
  simpl. now rewrite H.
Qed.

Lemma Product_init_native a b n :
  Product_init {| Schema.product_id := SqlText a; Schema.quantity := SqlInt n;
                  Schema.name := SqlText b |} =
  Ok {| Product.product_id := a; Product.name := b; Product.quantity := n |}.
Proof.
  unfold Product_init. simpl.
  now rewrite !validate_str_text, validate_int_int.
Qed.

Lemma Purchase_init_native d items x :
  Purchase_init (SqlText d) items (SqlReal x) =
  Ok {| Purchase.date := d; Purchase.items := items; Purchase.total_amount := x |}.
Proof.
  unfold Purchase_init. now rewrite validate_str_text, validate_float_real.
Qed.

End Evaluation.

(** ** On a store whose calls all succeed *)

Lemma decode_row_decodes {L : Library} {A}
    (columns : A -> list (string * SqlValue)) row f :
  decodes (columns row) = true -> decode_row columns row f = (Ok row, f).
Proof.
  unfold decodes, decode_row.
  destruct (undecodable (columns row)) as [[c t] |]; [discriminate | reflexivity].
Qed.

(** Converting the rows gives the rows themselves, or raises. *)
Lemma decode_rows_same {L : Library} {A}
    (columns : A -> list (string * SqlValue)) rows f rows' f' :
  for_each (decode_row columns) rows f = (Ok rows', f') -> rows' = rows /\ f' = f.
Proof.
  revert rows' f'.
  induction rows as [| r rows IH]; intros rows' f' H; cbn [for_each] in H.
  - inversion H. split; reflexivity.
  - unfold bind at 1 in H. unfold decode_row at 1 in H.
    destruct (undecodable (columns r)) as [[c t] |]; [discriminate |].
    cbn [ret] in H. unfold bind at 1 in H.
    destruct (for_each (decode_row columns) rows f) as [[l | e] f1] eqn:E;
      [| discriminate].
    destruct (IH l f1 eq_refl) as [-> ->]. inversion H. split; reflexivity.
Qed.

Lemma decode_rows_decode {L : Library} {A}
    (columns : A -> list (string * SqlValue)) rows f :
  forallb (fun r => decodes (columns r)) rows = true ->
  for_each (decode_row columns) rows f = (Ok rows, f).
Proof.
  induction rows as [| r rows IH]; intro H; cbn [for_each forallb] in *.
  - reflexivity.
  - apply andb_true_iff in H as [Hr Hrows].
    unfold bind. rewrite (decode_row_decodes columns r f Hr), (IH Hrows).
    reflexivity.
Qed.

Section Healthy.

Context {L : Library}.

Lemma store_call_healthy db f :
  healthy db -> store_call db f = (Ok tt, advance 1 f).
Proof. intro H. unfold store_call. rewrite H. reflexivity. Qed.

Lemma advance_advance n m f : advance n (advance m f) = advance (n + m) f.
Proof. unfold advance; simpl. f_equal. lia. Qed.

Lemma execute_healthy {A} db cid (select : string -> list A) f :
  healthy db -> bindable cid = true ->
  execute db (ObjStr cid) select f = (Ok (select cid), advance 1 f).
Proof.
  intros H Hb. unfold execute, bind, lift, ret.
  rewrite store_call_healthy by assumption.
  rewrite (bind_parameter_bindable cid Hb). reflexivity.
Qed.

Lemma fetchall_healthy {A} db (columns : A -> list (string * SqlValue)) rows f :
  healthy db ->
  forallb (fun r => decodes (columns r)) rows = true ->
  fetchall db columns rows f = (Ok rows, advance 1 f).
Proof.
  intros H Hd. unfold fetchall, bind.
  rewrite store_call_healthy by assumption.
  apply decode_rows_decode. exact Hd.
Qed.

Lemma fetchone_healthy {A} db (columns : A -> list (string * SqlValue)) rows f :
  healthy db ->
  forallb (fun r => decodes (columns r)) (firstn 1 rows) = true ->
  fetchone db columns rows f = (Ok (hd_error rows), advance 1 f).
Proof.
  intros H Hd. unfold fetchone, bind.
  rewrite store_call_healthy by assumption.
  destruct rows as [| r rows]; [reflexivity |].
  cbn [firstn forallb] in Hd. apply andb_true_iff in Hd as [Hr _].
  rewrite (decode_row_decodes columns r _ Hr). reflexivity.
Qed.

Lemma purchase_of_healthy db r f :
  healthy db -> items_decode db r = true ->
  purchase_of db r f = (purchase_value db r, advance 2 f).
Proof.
  intros H Hd. unfold purchase_of, bind.
  rewrite store_call_healthy by assumption.
  rewrite fetchall_healthy by assumption. rewrite advance_advance.
  unfold lift, purchase_value. simpl Nat.add.
  destruct (products_of _) as [items | e]; reflexivity.
Qed.

Lemma for_each_purchase_healthy db rows :
  healthy db ->
  forallb (items_decode db) rows = true ->
  forall f, exists n,
    for_each (purchase_of db) rows f = (purchase_values db rows, advance n f).
Proof.
  intro H. induction rows as [| r rows IH]; intros Hd f; simpl.
  - exists 0%nat. unfold ret, advance. now destruct f.
  - cbn [forallb] in Hd. apply andb_true_iff in Hd as [Hr Hrows].
    unfold bind at 1. rewrite purchase_of_healthy by assumption.
    destruct (purchase_value db r) as [p | e]; simpl.
    + unfold bind at 1. destruct (IH Hrows (advance 2 f)) as [n ->].
      rewrite advance_advance.
      destruct (purchase_values db rows); simpl; eexists; reflexivity.
    + eexists; reflexivity.
Qed.

Lemma reconstruct_healthy db cid row f :
  healthy db -> bindable cid = true -> readable db cid = true ->
  fst (reconstruct db (ObjStr cid) row f) = reconstruction db cid row.
Proof.
  intros H Hb Hr. unfold readable in Hr.
  apply andb_true_iff in Hr as [Hr Hitems].
  apply andb_true_iff in Hr as [_ Hrows].
  unfold reconstruct, reconstruction, customer_data_of.
  change load_cls with (@Raise unit NameError).
  unfold bind, lift.
  destruct (Address_init _ _ _ _) as [a | e]; [| reflexivity]. simpl and_then.
  destruct (garden_profile_of row) as [g | e]; [| reflexivity]. simpl and_then.
  rewrite execute_healthy by assumption.
  rewrite fetchall_healthy by assumption.
  destruct (for_each_purchase_healthy db (select_purchases db cid) H Hitems
              (advance 1 (advance 1 f))) as [n ->].
  destruct (purchase_values db (select_purchases db cid)) as [ph | e];
    reflexivity.
Qed.

Lemma try_block_healthy db cid row f :
  healthy db -> bindable cid = true -> readable db cid = true ->
  hd_error (select_customers db cid) = Some row ->
  fst (try_block db (ObjStr cid) f) = reconstruction db cid row.
Proof.
  intros H Hb Hr Hrow. unfold try_block, connect.
  assert (Hfirst : forallb (fun r => decodes (Schema.customer_columns r))
                     (firstn 1 (select_customers db cid)) = true).
  { unfold readable in Hr. apply andb_true_iff in Hr as [Hr _].
    apply andb_true_iff in Hr as [Hr _]. exact Hr. }
  unfold bind at 1 2 3 4 5.
  rewrite store_call_healthy by assumption. unfold set_conn at 1.
  rewrite store_call_healthy by assumption.
  rewrite execute_healthy by assumption.
  rewrite fetchone_healthy by assumption.
  rewrite Hrow. apply reconstruct_healthy; assumption.
Qed.

End Healthy.

(** ** Which exceptions the reconstruction raises *)

Section Raises.

Context {L : Library}.

Lemma Address_init_raises a b c d e :
  Address_init a b c d = Raise e -> e = ValidationError.
Proof.
  unfold Address_init.
  destruct (validate_str a), (validate_str b), (validate_str c), (validate_str d);
    intro H; inversion H; reflexivity.
Qed.

Lemma json_loads_raises v e :
  json_loads v = Raise e -> construction_error e = true.
Proof.
  unfold json_loads. destruct v as [| n | x | s | b];
    try (intro H; inversion H; reflexivity).
  - destruct (Json.loads s); intro H; inversion H; reflexivity.
  - destruct (decode_bytes b) as [s |]; [destruct (Json.loads s) |];
      intro H; inversion H; reflexivity.
Qed.

Lemma GardenProfile_init_raises a b c d j e :
  GardenProfile_init a b c d j = Raise e -> e = ValidationError.
Proof.
  unfold GardenProfile_init.
  destruct (validate_str a), (validate_str b), (validate_str c), (validate_str d),
    (validate_str_list j); intro H; inversion H; reflexivity.
Qed.

Lemma garden_profile_of_raises row e :
  garden_profile_of row = Raise e -> construction_error e = true.
Proof.
  unfold garden_profile_of.
  destruct (py_bool (Schema.garden_type row)); [| discriminate].
  destruct (json_loads (Schema.garden_interests row)) as [j | e0] eqn:Ej; simpl.
  - destruct (GardenProfile_init _ _ _ _ j) as [g | e1] eqn:Eg; simpl;
      [discriminate |].
    intro H; inversion H; subst.
    now rewrite (GardenProfile_init_raises _ _ _ _ _ _ Eg).
  - intro H; inversion H; subst. exact (json_loads_raises _ _ Ej).
Qed.

Lemma Product_init_raises item e :
  Product_init item = Raise e -> e = ValidationError.
Proof.
  unfold Product_init.
  destruct (validate_str (Schema.product_id item)),
    (validate_str (Schema.name item)), (validate_int (Schema.quantity item));
    intro H; inversion H; reflexivity.
Qed.

Lemma products_of_raises items e :
  products_of items = Raise e -> e = ValidationError.
Proof.
  induction items as [| i items IH]; simpl; [discriminate |].
  destruct (Product_init i) as [p | e0] eqn:Ep; simpl.
  - destruct (products_of items) as [ps | e1]; simpl; [discriminate |].
    intro H; inversion H; subst. now apply IH.
  - intro H; inversion H; subst. exact (Product_init_raises _ _ Ep).
Qed.

Lemma Purchase_init_raises d items t e :
  Purchase_init d items t = Raise e -> e = ValidationError.
Proof.
  unfold Purchase_init.
  destruct (validate_str d), (validate_float t); intro H; inversion H; reflexivity.
Qed.

Lemma purchase_value_raises db r e :
  purchase_value db r = Raise e -> e = ValidationError.
Proof.
  unfold purchase_value.
  destruct (products_of _) as [items | e0] eqn:Ei; simpl.
  - apply Purchase_init_raises.
  - intro H; inversion H; subst. exact (products_of_raises _ _ Ei).
Qed.

Lemma purchase_values_raises db rows e :
  purchase_values db rows = Raise e -> e = ValidationError.
Proof.
  induction rows as [| r rows IH]; simpl; [discriminate |].
  destruct (purchase_value db r) as [p | e0] eqn:Ep; simpl.
  - destruct (purchase_values db rows) as [ps | e1]; simpl; [discriminate |].
    intro H; inversion H; subst. now apply IH.
  - intro H; inversion H; subst. exact (purchase_value_raises _ _ _ Ep).
Qed.

(** The reconstruction always ends in an exception, and never in one of
    [sqlite3]. *)
Lemma reconstruction_raises db cid row :
  exists e, reconstruction db cid row = Raise e /\
            (construction_error e = true \/ e = NameError).
Proof.
  unfold reconstruction.
  destruct (Address_init _ _ _ _) as [a | e] eqn:Ea; simpl.
  2:{ exists e. split; [reflexivity | left].
      now rewrite (Address_init_raises _ _ _ _ _ Ea). }
  destruct (garden_profile_of row) as [g | e] eqn:Eg; simpl.
  2:{ exists e. split; [reflexivity | left].
      exact (garden_profile_of_raises _ _ Eg). }
  destruct (purchase_values db (select_purchases db cid)) as [ph | e] eqn:Ep; simpl.
  2:{ exists e. split; [reflexivity | left].
      now rewrite (purchase_values_raises _ _ _ Ep). }
  exists NameError. split; [reflexivity | now right].
Qed.

(** On a healthy store, what comes out of [get_customer] for a customer
    that is there is what the reconstruction raised. *)
Lemma get_customer_healthy db cid row f :
  healthy db -> bindable cid = true -> readable db cid = true ->
  hd_error (select_customers db cid) = Some row ->
  fst (get_customer db (ObjStr cid) f) = reconstruction db cid row.
Proof.
  intros H Hb Hr Hrow. rewrite get_customer_eq.
  rewrite (try_block_healthy db cid row (reset f) H Hb Hr Hrow).
  destruct (reconstruction_raises db cid row) as [e [-> He]].
  destruct e; try reflexivity.
  destruct He as [He | He]; discriminate.
Qed.

End Raises.

(** Rewriting with what the library is known to do, then computing. *)
Ltac evaluate :=
  repeat first
    [ rewrite Address_init_text
    | erewrite GardenProfile_init_text by reflexivity
    | progress unfold purchase_value, Seed.double, Seed.purchase
    | rewrite Product_init_native
    | rewrite Purchase_init_native
    | rewrite validate_str_text
    | rewrite validate_str_null
    | rewrite validate_int_int
    | rewrite validate_int_null
    | rewrite validate_float_real
    | rewrite validate_float_null
    | progress cbn ].

(** ** The seeded customer *)

Lemma seed_healthy : healthy Seed.db.
Proof. intro k. reflexivity. Qed.

Lemma db_json_healthy : healthy db_json.
Proof. intro k. reflexivity. Qed.

Lemma json_interests_loads :
  Json.loads json_interests =
  Some (Json.JArray (map Json.JString three_interests)).
Proof. vm_compute. reflexivity. Qed.

Lemma seeded_interests_do_not_load :
  Json.loads "Organic Gardening,Composting,Herb Growing" = None.
Proof. vm_compute. reflexivity. Qed.

(** C4 (what the code does instead).  A row with a truthy [garden_type]
    whose [garden_interests] is the JSON text of the three-element list
    does give a [GardenProfile] whose [interests] are the three strings in
    that order.  But the profile reaches no caller: on such a store
    [get_customer] ends in [NameError]; and on the store that
    [setup_database.py] creates, where the interests are stored separated
    by commas and not as JSON, it ends in [JSONDecodeError]. *)
Theorem garden_interests_round_trip_fails :
  forall L : Library,
    (forall row a b c d,
        py_bool (Schema.garden_type row) = true ->
        Schema.garden_interests row = SqlText json_interests ->
        validate_str (Schema.garden_type row) = Some a ->
        validate_str (Schema.garden_size row) = Some b ->
        validate_str (Schema.garden_sun_exposure row) = Some c ->
        validate_str (Schema.garden_soil_type row) = Some d ->
        garden_profile_of row =
        Ok (Some {| GardenProfile.type := a; GardenProfile.size := b;
                    GardenProfile.sun_exposure := c; GardenProfile.soil_type := d;
                    GardenProfile.interests := three_interests |})) /\
    fst (get_customer db_json (ObjStr "CUST001") entry) = Raise NameError /\
    fst (get_customer Seed.db (ObjStr "CUST001") entry) = Raise JSONDecodeError.
Proof.
  intro L. split; [| split].
  - intros row a b c d Ht Hi Ha Hb Hc Hd.
    unfold garden_profile_of, json_loads, GardenProfile_init.
    rewrite Ht, Hi, json_interests_loads. cbn [and_then].
    rewrite Ha, Hb, Hc, Hd. reflexivity.
  - rewrite (get_customer_healthy db_json "CUST001" cust001_json)
      by (apply db_json_healthy || reflexivity).
    unfold reconstruction, garden_profile_of, json_loads.
    cbn [cust001_json with_garden Schema.garden_interests Schema.garden_type
         py_bool String.eqb negb].
    rewrite json_interests_loads. evaluate. reflexivity.
  - rewrite (get_customer_healthy Seed.db "CUST001" Seed.cust001)
      by (apply seed_healthy || reflexivity).
    unfold reconstruction, garden_profile_of, json_loads.
    cbn [Seed.cust001 Schema.garden_interests Schema.garden_type
         py_bool String.eqb negb].
    rewrite seeded_interests_do_not_load. evaluate. reflexivity.
Qed.

(** C7 (what the code does instead).  From a row that stores 1, 0 and 1 in
    [comm_pref_email], [comm_pref_sms] and [comm_pref_push] the function
    builds [CommunicationPreferences(email=True, sms=False,
    push_notifications=True)]; but the call hands no [Customer] back that
    would carry it: for the seeded customer, with the interests stored as
    JSON, it ends in [NameError]. *)
Theorem comm_prefs_built_but_not_returned :
  forall L : Library,
    (forall row,
        Schema.comm_pref_email row = SqlInt 1 ->
        Schema.comm_pref_sms row = SqlInt 0 ->
        Schema.comm_pref_push row = SqlInt 1 ->
        comm_prefs_of row =
        {| CommunicationPreferences.email := true;
           CommunicationPreferences.sms := false;
           CommunicationPreferences.push_notifications := true |}) /\
    Schema.comm_pref_email cust001_json = SqlInt 1 /\
    Schema.comm_pref_sms cust001_json = SqlInt 0 /\
    Schema.comm_pref_push cust001_json = SqlInt 1 /\
    fst (get_customer db_json (ObjStr "CUST001") entry) = Raise NameError.
Proof.
  intro L. repeat split.
  - intros row He Hs Hp. unfold comm_prefs_of. rewrite He, Hs, Hp. reflexivity.
  - rewrite (get_customer_healthy db_json "CUST001" cust001_json)
      by (apply db_json_healthy || reflexivity).
    unfold reconstruction, garden_profile_of, json_loads.
    cbn [cust001_json with_garden Schema.garden_interests Schema.garden_type
         py_bool String.eqb negb].
    rewrite json_interests_loads. evaluate. reflexivity.
Qed.

(** C6 (what the code does instead).  For a row whose [garden_type] is
    falsy (NULL or the empty string) the function builds no
    [GardenProfile], whatever the other garden columns hold: it does not
    look at them.  But no [Customer] with [garden_profile=None] is handed
    back: for the seeded customer with an empty [garden_type] the call ends
    in [NameError]. *)
Theorem no_garden_profile_but_not_returned :
  forall L : Library,
    (forall row,
        py_bool (Schema.garden_type row) = false ->
        garden_profile_of row = Ok None) /\
    py_bool SqlNull = false /\
    py_bool (SqlText "") = false /\
    fst (get_customer db_no_garden (ObjStr "CUST001") entry) = Raise NameError.
Proof.
  intro L. repeat split.
  - intros row H. unfold garden_profile_of. now rewrite H.
  - rewrite (get_customer_healthy db_no_garden "CUST001" cust001_no_garden)
      by ((intro; reflexivity) || reflexivity).
    unfold reconstruction, garden_profile_of.
    cbn [cust001_no_garden with_garden Schema.garden_type py_bool String.eqb negb].
    evaluate. reflexivity.
Qed.

(** ** The column [scheduled_appointments] *)

Lemma bind_ext {A B} (m : Py A) (k1 k2 : A -> Py B) f :
  (forall a f', k1 a f' = k2 a f') -> bind m k1 f = bind m k2 f.
Proof.
  intro H. unfold bind. destruct (m f) as [[a | e] f']; [apply H | reflexivity].
Qed.

Lemma cons_eq_inv {A} (x y : A) (l l' : list A) :
  x :: l = y :: l' -> x = y /\ l = l'.
Proof. intro H. inversion H. split; reflexivity. Qed.

Lemma bind_assoc {A B C} (m : Py A) (k : A -> Py B) (h : B -> Py C) f :
  bind (bind m k) h f = bind m (fun a => bind (k a) h) f.
Proof. unfold bind. destruct (m f) as [[a | e] f']; reflexivity. Qed.

(** A last column that decodes does not change which column fails. *)
Lemma undecodable_last columns c v :
  decodable v = true -> undecodable (columns ++ [(c, v)]) = undecodable columns.
Proof.
  intro H. induction columns as [| [c' v'] columns IH]; cbn [app undecodable].
  - destruct v; try reflexivity. cbn [decodable] in H. now rewrite H.
  - destruct v'; try exact IH. destruct (Utf8.valid s); [exact IH | reflexivity].
Qed.

Lemma customer_columns_last r :
  Schema.customer_columns r =
  (removelast (Schema.customer_columns r) ++
   [("scheduled_appointments", Schema.scheduled_appointments r)])%list.
Proof. reflexivity. Qed.

Lemma undecodable_appointments r :
  decodable (Schema.scheduled_appointments r) = true ->
  undecodable (Schema.customer_columns r) =
  undecodable (Schema.customer_columns (with_appointments SqlNull r)).
Proof.
  intro H.
  rewrite (customer_columns_last r), (undecodable_last _ _ _ H).
  rewrite (customer_columns_last (with_appointments SqlNull r)).
  rewrite undecodable_last by reflexivity. reflexivity.
Qed.

Section Appointments.

Context {L : Library}.

Lemma Customer_init_appointments kw v :
  Customer_init (with_columns (with_appointments v (columns kw)) kw) =
  Customer_init kw.
Proof. destruct kw as [r a ph cp g]. destruct r. reflexivity. Qed.

Lemma reconstruct_appointments db p r v f :
  reconstruct db p (with_appointments v r) f = reconstruct db p r f.
Proof.
  destruct r.
  unfold reconstruct, customer_data_of, with_appointments, garden_profile_of,
    comm_prefs_of.
  cbn [Schema.billing_address_street Schema.billing_address_city
       Schema.billing_address_state Schema.billing_address_zip
       Schema.garden_type Schema.garden_size Schema.garden_sun_exposure
       Schema.garden_soil_type Schema.garden_interests
       Schema.comm_pref_email Schema.comm_pref_sms Schema.comm_pref_push].
  repeat (rewrite !bind_assoc; apply bind_ext; intros ? ?).
  reflexivity.
Qed.

Lemma reconstruct_same db p r r' f :
  with_appointments SqlNull r = with_appointments SqlNull r' ->
  reconstruct db p r f = reconstruct db p r' f.
Proof.
  intro H.
  rewrite <- (reconstruct_appointments db p r SqlNull).
  rewrite <- (reconstruct_appointments db p r' SqlNull).
  now rewrite H.
Qed.

(** Once the row is found the table [customers] is not read again. *)
Lemma reconstruct_with_customers db rows' p r f :
  reconstruct (with_customers rows' db) p r f = reconstruct db p r f.
Proof.
  unfold reconstruct, customer_data_of.
  repeat (rewrite !bind_assoc; apply bind_ext; intros ? ?).
  reflexivity.
Qed.

Lemma customer_id_appointments v r :
  Schema.customer_id (with_appointments v r) = Schema.customer_id r.
Proof. reflexivity. Qed.

(** The first row that the query selects is the same in both stores, up to
    the column, and the column decodes in both. *)
Lemma first_row_same rows rows' cid :
  same_but_appointments rows rows' ->
  appointments_decode rows = true ->
  appointments_decode rows' = true ->
  match filter (fun r => sql_eq (Schema.customer_id r) (SqlText cid)) rows,
        filter (fun r => sql_eq (Schema.customer_id r) (SqlText cid)) rows'
  with
  | [], [] => True
  | r :: _, r' :: _ =>
      with_appointments SqlNull r = with_appointments SqlNull r' /\
      decodable (Schema.scheduled_appointments r) = true /\
      decodable (Schema.scheduled_appointments r') = true
  | _, _ => False
  end.
Proof.
  unfold same_but_appointments, appointments_decode.
  revert rows'. induction rows as [| r rows IH]; intros [| r' rows'] H Hd Hd';
    cbn [map] in H; try discriminate; cbn [filter]; [exact I |].
  apply cons_eq_inv in H as [Hr Hrest].
  cbn [forallb] in Hd, Hd'.
  apply andb_true_iff in Hd as [Hdr Hd]. apply andb_true_iff in Hd' as [Hdr' Hd'].
  assert (Hid : Schema.customer_id r = Schema.customer_id r').
  { rewrite <- (customer_id_appointments SqlNull r), Hr. reflexivity. }
  rewrite Hid.
  destruct (sql_eq (Schema.customer_id r') (SqlText cid)).
  - split; [exact Hr | split; assumption].
  - apply IH; assumption.
Qed.

Lemma try_block_same db rows' p f :
  same_but_appointments (customers db) rows' ->
  appointments_decode (customers db) = true ->
  appointments_decode rows' = true ->
  try_block (with_customers rows' db) p f = try_block db p f.
Proof.
  intros H Hd Hd'. unfold try_block.
  apply bind_ext; intros _ f1.
  apply bind_ext; intros _ f2.
  unfold execute, fetchone, bind.
  change (store_call (with_customers rows' db)) with (store_call db).
  destruct (store_call db f2) as [[[] | e] f3]; [| reflexivity].
  unfold lift, ret.
  destruct (bind_parameter p) as [cid | e]; [| reflexivity].
  destruct (store_call db f3) as [[[] | e] f4]; [| reflexivity].
  pose proof (first_row_same (customers db) rows' cid H Hd Hd') as Hrow.
  unfold select_customers. cbn [customers with_customers].
  destruct (filter _ (customers db)) as [| r rest],
           (filter _ rows') as [| r' rest']; try contradiction; [reflexivity |].
  destruct Hrow as [Hr [Hdr Hdr']].
  unfold decode_row.
  rewrite (undecodable_appointments r Hdr), (undecodable_appointments r' Hdr'), Hr.
  destruct (undecodable _) as [[c t] |]; [reflexivity |].
  cbn [ret]. rewrite reconstruct_with_customers.
  symmetry. now apply reconstruct_same.
Qed.

End Appointments.

(** C9 (as amended).  Replace the customer rows of a store by rows that
    differ from them at most in [scheduled_appointments], the value of the
    column being one that decodes in both (anything but a TEXT that is no
    UTF-8): [get_customer] then does exactly the same, for every argument
    and from every frame (same result or exception, same lines printed,
    same calls).  Called through the class, the function does the same
    whatever the rows are.  And the [Customer] that the constructor would
    make of [customer_data] does not depend on that column either: the
    model has no such field. *)
Theorem scheduled_appointments_has_no_influence :
  forall (L : Library) (db : Store) (customer_id : PyObj) (f : Frame),
    (forall rows',
        same_but_appointments (customers db) rows' ->
        appointments_decode (customers db) = true ->
        appointments_decode rows' = true ->
        get_customer (with_customers rows' db) customer_id f =
        get_customer db customer_id f) /\
    (forall rows' args,
        Customer_get_customer (with_customers rows' db) args f =
        Customer_get_customer db args f) /\
    (forall kw v,
        Customer_init (with_columns (with_appointments v (columns kw)) kw) =
        Customer_init kw).
Proof.
  intros L db p f. split; [| split].
  - intros rows' H Hd Hd'. rewrite !get_customer_eq.
    now rewrite (try_block_same db rows' p (reset f) H Hd Hd').
  - intros rows' [| x [| y args]]; reflexivity.
  - intros kw v. apply Customer_init_appointments.
Qed.

(** The seeded customer, the interests stored as JSON, with an appointment
    recorded: both calls go through the whole reconstruction. *)
Lemma scheduled_appointments_witness :
  get_customer (L := uncoerced)
    (with_customers
       [with_appointments (SqlText "2024-07-29 09:00 planting") cust001_json]
       db_json)
    (ObjStr "CUST001") entry =
  get_customer (L := uncoerced) db_json (ObjStr "CUST001") entry /\
  get_customer (L := uncoerced) db_json (ObjStr "CUST001") entry =
  (Raise NameError, {| calls := 12; conn := Some Closed; stdout := [] |}).
Proof.
  split.
  - apply (proj1 (scheduled_appointments_has_no_influence uncoerced db_json
                    (ObjStr "CUST001") entry)); reflexivity.
  - vm_compute. reflexivity.
Defined.

(** C9 (as stated) fails when the value of the column does not decode.
    The two stores differ in the [scheduled_appointments] of CUST001 only:
    a JSON text in one, a TEXT of one byte that is no UTF-8 in the other.
    On the first the call goes through the reconstruction (and ends in
    [NameError]); on the second the row cannot be fetched, the
    [sqlite3.OperationalError] is caught, and the call returns [None]. *)
Lemma scheduled_appointments_counterexample :
  same_but_appointments (customers db_json)
    [with_appointments (SqlText not_utf8) cust001_json] /\
  fst (get_customer (L := uncoerced) db_json (ObjStr "CUST001") entry) =
    Raise NameError /\
  fst (get_customer (L := uncoerced)
         (with_customers [with_appointments (SqlText not_utf8) cust001_json]
            db_json)
         (ObjStr "CUST001") entry) = Ok None.
Proof. vm_compute. repeat split. Qed.

(** ** Stored fields that do not fit their type *)

Section Malformed.

Context {L : Library}.

Lemma Address_init_ok row a :
  Address_init (Schema.billing_address_street row)
    (Schema.billing_address_city row) (Schema.billing_address_state row)
    (Schema.billing_address_zip row) = Ok a ->
  ~ malformed_address row.
Proof.
  unfold Address_init, malformed_address.
  destruct (validate_str (Schema.billing_address_street row)),
    (validate_str (Schema.billing_address_city row)),
    (validate_str (Schema.billing_address_state row)),
    (validate_str (Schema.billing_address_zip row));
    intros H [M | [M | [M | M]]]; discriminate.
Qed.

Lemma garden_profile_of_ok row g :
  garden_profile_of row = Ok g -> ~ malformed_garden row.
Proof.
  unfold garden_profile_of, malformed_garden.
  destruct (py_bool (Schema.garden_type row)); [| intros _ [M _]; discriminate].
  destruct (json_loads (Schema.garden_interests row)) as [j | e]; simpl;
    [| discriminate].
  unfold GardenProfile_init.
  destruct (validate_str (Schema.garden_type row)),
    (validate_str (Schema.garden_size row)),
    (validate_str (Schema.garden_sun_exposure row)),
    (validate_str (Schema.garden_soil_type row)),
    (validate_str_list j) eqn:El; simpl; try discriminate.
  intros _ [_ [[e M] | [[j' [Hj M]] | [M | [M | [M | M]]]]]]; try discriminate.
  inversion Hj; subst. rewrite El in M. discriminate.
Qed.

Lemma products_of_ok items ps :
  products_of items = Ok ps -> ~ Exists malformed_item items.
Proof.
  revert ps. induction items as [| i items IH]; intros ps H Hex.
  - inversion Hex.
  - simpl in H.
    destruct (Product_init i) as [p | e] eqn:Ep; simpl in H; [| discriminate].
    destruct (products_of items) as [ps' | e] eqn:Eps; simpl in H; [| discriminate].
    inversion Hex as [? ? M | ? ? M]; subst.
    + unfold Product_init in Ep. unfold malformed_item in M.
      destruct (validate_str (Schema.product_id i)),
        (validate_str (Schema.name i)), (validate_int (Schema.quantity i));
        try discriminate; destruct M as [M | [M | M]]; discriminate.
    + exact (IH ps' eq_refl M).
Qed.

Lemma purchase_value_ok db r p :
  purchase_value db r = Ok p -> ~ malformed_purchase db r.
Proof.
  unfold purchase_value, malformed_purchase.
  destruct (products_of _) as [items | e] eqn:Ei; simpl; [| discriminate].
  unfold Purchase_init.
  destruct (validate_str (Schema.date r)), (validate_float (Schema.total_amount r));
    try discriminate.
  intros _ [M | [M | M]]; try discriminate.
  exact (products_of_ok _ _ Ei M).
Qed.

Lemma purchase_values_ok db rows ps :
  purchase_values db rows = Ok ps -> ~ Exists (malformed_purchase db) rows.
Proof.
  revert ps. induction rows as [| r rows IH]; intros ps H Hex.
  - inversion Hex.
  - simpl in H.
    destruct (purchase_value db r) as [p | e] eqn:Ep; simpl in H; [| discriminate].
    destruct (purchase_values db rows) as [ps' | e] eqn:Eps; simpl in H;
      [| discriminate].
    inversion Hex as [? ? M | ? ? M]; subst.
    + exact (purchase_value_ok _ _ _ Ep M).
    + exact (IH ps' eq_refl M).
Qed.

End Malformed.

(** C5 (as amended).  Let the store be healthy, let [customer_id] be a
    text that [sqlite3] binds and let it select a row, every fetched row
    decoding.  If pydantic or [json.loads] rejects a field that the
    function validates on its way (a billing address column; with a truthy
    [garden_type], the interests or another garden column; the date or
    total of one of the customer's purchases, or a field of one of its line
    items), then [get_customer] raises a construction error
    ([ValidationError], or what [json.loads] raised): the error is not
    caught and [None] is not returned.  Rejected for certain are [None] for
    any of these fields, and a number where a [str] is wanted. *)
Theorem malformed_field_raises :
  forall L : Library,
    (forall (db : Store) (cid : string) (row : Schema.customer),
        healthy db ->
        bindable cid = true ->
        readable db cid = true ->
        hd_error (select_customers db cid) = Some row ->
        malformed db cid row ->
        exists e,
          construction_error e = true /\
          fst (get_customer db (ObjStr cid) entry) = Raise e) /\
    validate_str SqlNull = None /\
    (forall n, validate_str (SqlInt n) = None) /\
    (forall x, validate_str (SqlReal x) = None) /\
    validate_int SqlNull = None /\
    validate_float SqlNull = None.
Proof.
  intro L. split.
  2:{ repeat split; intros;
      first [ apply validate_str_null | apply validate_str_int
            | apply validate_str_real | apply validate_int_null
            | apply validate_float_null ]. }
  intros db cid row Hh Hb Hr Hrow M.
  rewrite (get_customer_healthy db cid row entry Hh Hb Hr Hrow).
  unfold reconstruction.
  destruct (Address_init _ _ _ _) as [a | e] eqn:Ea; simpl.
  2:{ exists e. split; [| reflexivity].
      now rewrite (Address_init_raises _ _ _ _ _ Ea). }
  destruct (garden_profile_of row) as [g | e] eqn:Eg; simpl.
  2:{ exists e. split; [| reflexivity].
      exact (garden_profile_of_raises _ _ Eg). }
  destruct (purchase_values db (select_purchases db cid)) as [ph | e] eqn:Ep; simpl.
  2:{ exists e. split; [| reflexivity].
      now rewrite (purchase_values_raises _ _ _ Ep). }
  exfalso. destruct M as [M | [M | M]].
  - exact (Address_init_ok _ _ Ea M).
  - exact (garden_profile_of_ok _ _ Eg M).
  - exact (purchase_values_ok _ _ _ Ep M).
Qed.

(** The seeded store with the interests stored as JSON and the
    [total_amount] of the second purchase stored as [NULL]. *)
Lemma malformed_field_witness :
  exists e,
    construction_error e = true /\
    fst (get_customer (L := uncoerced) db_null_total (ObjStr "CUST001") entry) =
    Raise e.
Proof.
  apply (proj1 (malformed_field_raises uncoerced) db_null_total "CUST001"
           cust001_json).
  - intro k. reflexivity.
  - reflexivity.
  - reflexivity.
  - reflexivity.
  - right. right. apply Exists_cons_tl. apply Exists_cons_hd.
    right. left. reflexivity.
Defined.

(** C5 (as stated) fails in three ways.  First: next to an empty
    [garden_type], a [garden_interests] that [json.loads] rejects is never
    deserialized; no profile is built, no construction fails, and the call
    ends as it does for a well-formed row.  Second: a [total_amount] that
    is no number does make the constructor fail on a healthy store, but
    when the store fails before that row is reached the outcome is [None]
    all the same.  Third: a [garden_interests] whose text is no UTF-8 is
    not deserialized either: the row cannot be fetched, and the call
    returns [None]. *)
Lemma malformed_field_counterexample :
  json_loads (L := uncoerced) (Schema.garden_interests cust001_no_garden) =
    Raise JSONDecodeError /\
  garden_profile_of (L := uncoerced) cust001_no_garden = Ok None /\
  fst (get_customer (L := uncoerced) db_no_garden (ObjStr "CUST001") entry) =
    Raise NameError /\
  construction_error NameError = false /\
  validate_float (Library := uncoerced) (SqlText "n/a") = None /\
  fst (get_customer (L := uncoerced) db_bad_total (ObjStr "CUST001") entry) =
    Raise ValidationError /\
  fst (get_customer (L := uncoerced)
         (failing_at 6 "database is locked" db_bad_total)
         (ObjStr "CUST001") entry) = Ok None /\
  Json.loads not_utf8 = None /\
  fst (get_customer (L := uncoerced)
         (with_customers
            [with_garden (SqlText "Vegetable Garden") (SqlText not_utf8)
               Seed.cust001]
            Seed.db)
         (ObjStr "CUST001") entry) = Ok None.
Proof. vm_compute. repeat split. Qed.

(** ** One purchase per row, one product per line *)

Section History.

Context {L : Library}.

Lemma products_of_matches items ps :
  products_of items = Ok ps -> Forall2 product_matches items ps.
Proof.
  revert ps. induction items as [| i items IH]; intros ps H; simpl in H.
  - inversion H. constructor.
  - destruct (Product_init i) as [p | e] eqn:Ep; [| discriminate].
    destruct (products_of items) as [ps' | e] eqn:Eps; [| discriminate].
    simpl in H. inversion H; subst. constructor; [| now apply IH].
    unfold Product_init in Ep. unfold product_matches.
    destruct (validate_str (Schema.product_id i)),
      (validate_str (Schema.name i)), (validate_int (Schema.quantity i));
      try discriminate.
    inversion Ep; subst. simpl. repeat split.
Qed.

Lemma purchase_of_matches db r f p f' :
  purchase_of db r f = (Ok p, f') -> purchase_matches db r p.
Proof.
  unfold purchase_of, fetchall, bind, lift.
  destruct (store_call db f) as [[[] | e] f1]; [| discriminate].
  destruct (store_call db f1) as [[[] | e] f2]; [| discriminate].
  destruct (for_each (decode_row Schema.item_columns) _ f2)
    as [[item_rows | e] f3] eqn:Ef; [| discriminate].
  apply decode_rows_same in Ef as [-> ->].
  destruct (products_of _) as [items | e] eqn:Ei; [| discriminate].
  unfold Purchase_init.
  destruct (validate_str (Schema.date r)) as [d |] eqn:Ed; [| discriminate].
  destruct (validate_float (Schema.total_amount r)) as [x |] eqn:Ex;
    [| discriminate].
  intro H; inversion H; subst. unfold purchase_matches. simpl.
  split; [exact Ed | split; [exact Ex | now apply products_of_matches]].
Qed.

End History.

(** X4.  When the loop over the purchase rows completes, the history holds
    exactly one [Purchase] per row, in the order of the rows; each has the
    date and the total of its row and exactly one [Product] per joined
    line, in the order of the lines, with the identifier, name and quantity
    of that line. *)
Theorem purchase_history_follows_the_rows :
  forall (L : Library) (db : Store) (rows : list Schema.purchase)
         (f f' : Frame) (history : list Purchase.t),
    for_each (purchase_of db) rows f = (Ok history, f') ->
    Forall2 (purchase_matches db) rows history.
Proof.
  intros L db rows. induction rows as [| r rows IH]; intros f f' history H.
  - inversion H. constructor.
  - simpl in H. unfold bind at 1 in H.
    destruct (purchase_of db r f) as [[p | e] f1] eqn:Ep; [| discriminate].
    unfold bind at 1 in H.
    destruct (for_each (purchase_of db) rows f1) as [[ps | e] f2] eqn:Eps;
      [| discriminate].
    inversion H; subst. constructor.
    + exact (purchase_of_matches _ _ _ _ _ Ep).
    + exact (IH _ _ _ Eps).
Qed.

(** The three purchases of the seeded customer. *)
Lemma purchase_history_witness :
  Forall2 (purchase_matches (L := uncoerced) Seed.db)
    (select_purchases Seed.db "CUST001") seeded_history.
Proof.
  apply (purchase_history_follows_the_rows uncoerced Seed.db
           (select_purchases Seed.db "CUST001") entry
           {| calls := 6; conn := None; stdout := [] |} seeded_history).
  vm_compute. reflexivity.
Defined.

(** ** The script that sets the database up *)

Section SetupScript.

Import SetupDatabase.

Variable failure : nat -> option string.

(** Running the script by hand: the outcome of each call is looked up among
    the hypotheses. *)
Ltac run_script lookup :=
  unfold main, insert_sample_data, connect, ddl, dml, commit, call, say,
    SetupDatabase.try_finally, SetupDatabase.try_except, SetupDatabase.bind,
    with_frame, start;
  cbn;
  repeat (first [ lookup
                | progress unfold insert_sample, dml, call, commit, say, with_frame,
                    SetupDatabase.bind, SetupDatabase.ret ]; cbn).

Lemma main_healthy (d : DbFile) :
  (forall k, failure k = None) ->
  main failure (start d) = (Ok tt, done (file_of Seed.db) 22 success_line).
Proof.
  intro H. run_script ltac:(rewrite H). reflexivity.
Qed.

Lemma main_insert_failure (d : DbFile) (k : nat) (msg : string) :
  (10 <= k < 22)%nat ->
  (forall j, (j < k)%nat -> failure j = None) ->
  failure k = Some msg ->
  main failure (start d) = (Ok tt, done empty_tables (S k) (error_line msg)).
Proof.
  intros Hk Hlt Hat.
  do 10 (destruct k as [| k]; [lia |]).
  do 12 (destruct k as [| k];
         [ run_script ltac:(first [rewrite Hat | rewrite Hlt by lia]); reflexivity |]).
  lia.
Qed.

Lemma main_ddl_failure (d : DbFile) (k : nat) (msg : string) :
  (k < 10)%nat ->
  (forall j, (j < k)%nat -> failure j = None) ->
  failure k = Some msg ->
  let out := main failure (start d) in
  fst out = Raise (SqliteError msg) /\
  conn (frame (snd out)) = (if Nat.eqb k 0 then None else Some Open) /\
  calls (frame (snd out)) = S k /\
  ((k <= 2)%nat -> file (snd out) = d) /\
  ((6 <= k)%nat -> holds_no_row (file (snd out))).
Proof.
  intros Hk Hlt Hat.
  do 10 (destruct k as [| k];
         [ run_script ltac:(first [rewrite Hat | rewrite Hlt by lia]);
           repeat split;
           first [ reflexivity
                 | lia
                 | left; reflexivity
                 | right; reflexivity
                 | intro; lia
                 | intros _; reflexivity
                 | intros _; repeat split;
                   first [left; reflexivity | right; reflexivity] ] |]).
  lia.
Qed.

End SetupScript.

(** X5.  When no call fails, the script ends normally and leaves in the
    file exactly the seeded rows, whatever the file held before: tables
    that were missing, other rows, or the rows of an earlier run.  It makes
    22 calls, prints its six progress lines and the success line, and
    closes the connection with nothing uncommitted. *)
Theorem setup_rebuilds_the_database :
  forall (failure : nat -> option string) (d : SetupDatabase.DbFile),
    (forall k, failure k = None) ->
    SetupDatabase.main failure (SetupDatabase.start d) =
    (Ok tt, done (SetupDatabase.file_of Seed.db) 22 SetupDatabase.success_line) /\
    SetupDatabase.main failure
      (SetupDatabase.start
         (SetupDatabase.file
            (snd (SetupDatabase.main failure (SetupDatabase.start d))))) =
    SetupDatabase.main failure (SetupDatabase.start d).
Proof.
  intros failure d H. split.
  - now apply main_healthy.
  - now rewrite !main_healthy.
Qed.

(** The script run on a file that holds other rows. *)
Lemma setup_witness :
  SetupDatabase.main (fun _ => None)
    (SetupDatabase.start (SetupDatabase.file_of db_bad_total)) =
  (Ok tt, done (SetupDatabase.file_of Seed.db) 22 SetupDatabase.success_line).
Proof.
  apply (proj1 (setup_rebuilds_the_database (fun _ => None)
                  (SetupDatabase.file_of db_bad_total) (fun _ => eq_refl))).
Defined.

(** X6.  When the first call to fail is one of the [try] block (an INSERT
    or the commit, calls 10 to 21), no exception leaves the script: it
    prints the error line, rolls back and closes the connection.  The file
    is then left with the four tables and no row at all, whatever it held
    before and however many rows had been inserted. *)
Theorem failed_insert_is_rolled_back :
  forall (failure : nat -> option string) (d : SetupDatabase.DbFile)
         (k : nat) (msg : string),
    (10 <= k < 22)%nat ->
    (forall j, (j < k)%nat -> failure j = None) ->
    failure k = Some msg ->
    SetupDatabase.main failure (SetupDatabase.start d) =
    (Ok tt, done SetupDatabase.empty_tables (S k) (SetupDatabase.error_line msg)).
Proof.
  intros failure d k msg. apply main_insert_failure.
Qed.

(** The commit, call 21, fails on the seeded file. *)
Lemma failed_insert_witness :
  SetupDatabase.main (fun k => if Nat.eqb k 21 then Some "disk I/O error" else None)
    (SetupDatabase.start (SetupDatabase.file_of Seed.db)) =
  (Ok tt,
   done SetupDatabase.empty_tables 22 (SetupDatabase.error_line "disk I/O error")).
Proof.
  apply (failed_insert_is_rolled_back
           (fun k => if Nat.eqb k 21 then Some "disk I/O error" else None)
           (SetupDatabase.file_of Seed.db) 21 "disk I/O error").
  - lia.
  - intros j Hj. destruct (Nat.eqb j 21) eqn:E; [| reflexivity].
    apply Nat.eqb_eq in E. lia.
  - reflexivity.
Defined.

(** X7.  When the first call to fail comes before the [try] statement
    (the connection, the cursor, a DROP or a CREATE, calls 0 to 9), the
    [sqlite3.Error] leaves the script and the connection, if it was opened,
    is never closed.  Nothing is undone: a failure up to the first DROP
    leaves the file as it was, and a failure of a CREATE leaves it without
    any of its former rows. *)
Theorem failed_create_is_not_handled :
  forall (failure : nat -> option string) (d : SetupDatabase.DbFile)
         (k : nat) (msg : string),
    (k < 10)%nat ->
    (forall j, (j < k)%nat -> failure j = None) ->
    failure k = Some msg ->
    let out := SetupDatabase.main failure (SetupDatabase.start d) in
    fst out = Raise (SqliteError msg) /\
    conn (SetupDatabase.frame (snd out)) = (if Nat.eqb k 0 then None else Some Open) /\
    calls (SetupDatabase.frame (snd out)) = S k /\
    ((k <= 2)%nat -> SetupDatabase.file (snd out) = d) /\
    ((6 <= k)%nat -> SetupDatabase.holds_no_row (SetupDatabase.file (snd out))).
Proof.
  intros failure d k msg. apply main_ddl_failure.
Qed.

(** The second CREATE, call 7, fails on the seeded file. *)
Lemma failed_create_witness :
  let out :=
    SetupDatabase.main
      (fun k => if Nat.eqb k 7 then Some "database is locked" else None)
      (SetupDatabase.start (SetupDatabase.file_of Seed.db)) in
  fst out = Raise (SqliteError "database is locked") /\
  conn (SetupDatabase.frame (snd out)) = Some Open /\
  calls (SetupDatabase.frame (snd out)) = 8%nat /\
  SetupDatabase.holds_no_row (SetupDatabase.file (snd out)).
Proof.
  destruct (failed_create_is_not_handled
              (fun k => if Nat.eqb k 7 then Some "database is locked" else None)
              (SetupDatabase.file_of Seed.db) 7 "database is locked")
    as [H1 [H2 [H3 [_ H5]]]].
  - lia.
  - intros j Hj. destruct (Nat.eqb j 7) eqn:E; [| reflexivity].
    apply Nat.eqb_eq in E. lia.
  - reflexivity.
  - split; [exact H1 | split; [exact H2 | split; [exact H3 | apply H5; lia]]].
Defined.

(** ** Fetching from the file that the script leaves *)

Section FetchFromFile.

Import SetupDatabase.

Context {L : Library}.

Lemma open_seeded_healthy oracle :
  (forall k, oracle k = None) -> healthy (open_file (file_of Seed.db) oracle).
Proof.
  intros H k. unfold open_file. cbn [failure]. rewrite H.
  cbn [table_exists file_of file_customers file_products file_purchases
       file_purchase_items].
  destruct (Nat.eqb k 2), (Nat.eqb k 4), (Nat.leb 6 k && Nat.even k); reflexivity.
Qed.

Lemma open_empty_first_calls oracle k :
  (forall j, (j < 4)%nat -> oracle j = None) ->
  (k < 4)%nat -> failure (open_file empty_tables oracle) k = None.
Proof.
  intros H Hk. unfold open_file. cbn [failure]. rewrite H by assumption.
  do 4 (destruct k as [| k]; [reflexivity |]). lia.
Qed.

End FetchFromFile.

(** X8.  Run the script without a failure on any file, then fetch from the
    file it leaves, again without a failure.  For an identifier that
    [sqlite3] binds the fetch returns [None], unless it is CUST001: then it
    raises [JSONDecodeError], because the script stored the interests
    separated by commas.  For an identifier that does not encode to UTF-8
    it raises [UnicodeEncodeError]. *)
Theorem fetch_after_setup :
  forall (L : Library) (failure oracle : nat -> option string)
         (d : SetupDatabase.DbFile) (cid : string),
    (forall k, failure k = None) ->
    (forall k, oracle k = None) ->
    let db :=
      open_file
        (SetupDatabase.file
           (snd (SetupDatabase.main failure (SetupDatabase.start d))))
        oracle in
    (bindable cid = true ->
     fst (get_customer db (ObjStr cid) entry) =
     if String.eqb cid "CUST001" then Raise JSONDecodeError else Ok None) /\
    (Utf8.valid cid = false ->
     fst (get_customer db (ObjStr cid) entry) = Raise UnicodeEncodeError).
Proof.
  intros L failure oracle d cid Hf Ho db. subst db.
  rewrite (main_healthy failure d Hf). cbn [snd done SetupDatabase.file].
  pose proof (open_seeded_healthy oracle Ho) as Hh.
  split.
  - intro Hb. destruct (String.eqb cid "CUST001") eqn:E.
    + apply String.eqb_eq in E. subst cid.
      rewrite (get_customer_healthy _ "CUST001" Seed.cust001 entry Hh)
        by reflexivity.
      unfold reconstruction, garden_profile_of, json_loads.
      cbn [Seed.cust001 Schema.garden_interests Schema.garden_type
           Schema.billing_address_street Schema.billing_address_city
           Schema.billing_address_state Schema.billing_address_zip
           py_bool String.eqb negb].
      rewrite seeded_interests_do_not_load, Address_init_text. reflexivity.
    + rewrite get_customer_eq.
      assert (Hsel : select_customers
                       (open_file (SetupDatabase.file_of Seed.db) oracle) cid = []).
      { unfold select_customers.
        cbn [open_file customers SetupDatabase.file_of SetupDatabase.file_customers
             Seed.db filter Seed.cust001 Schema.customer_id sql_eq].
        rewrite String.eqb_sym, E. reflexivity. }
      destruct (try_block_no_row _ cid (reset entry) Hb Hsel) as [-> | [msg ->]];
        reflexivity.
  - intro Hv. rewrite get_customer_eq.
    rewrite (try_block_surrogate _ cid (reset entry)); [reflexivity | | exact Hv].
    intros k _. apply Hh.
Qed.

(** X9.  After a run of the script in which an INSERT or the commit
    failed, the file holds the tables and no row.  A fetch whose store
    calls succeed then answers, for every identifier that [sqlite3] binds,
    that the customer is not found; for an identifier that does not encode
    to UTF-8 it raises [UnicodeEncodeError] from its third call. *)
Theorem fetch_after_failed_setup :
  forall (L : Library) (failure oracle : nat -> option string)
         (d : SetupDatabase.DbFile) (k : nat) (msg cid : string),
    (10 <= k < 22)%nat ->
    (forall j, (j < k)%nat -> failure j = None) ->
    failure k = Some msg ->
    (forall j, (j < 4)%nat -> oracle j = None) ->
    let db :=
      open_file
        (SetupDatabase.file
           (snd (SetupDatabase.main failure (SetupDatabase.start d))))
        oracle in
    (bindable cid = true ->
     get_customer db (ObjStr cid) entry =
     (Ok None,
      {| calls := 4; conn := Some Closed;
         stdout := [not_found_line (ObjStr cid)] |})) /\
    (Utf8.valid cid = false ->
     get_customer db (ObjStr cid) entry =
     (Raise UnicodeEncodeError,
      {| calls := 3; conn := Some Closed; stdout := [] |})).
Proof.
  intros L script_failure oracle d k msg cid Hk Hlt Hat Ho db. subst db.
  rewrite (main_insert_failure script_failure d k msg Hk Hlt Hat).
  cbn [snd done SetupDatabase.file].
  assert (Hcalls : forall j, (j < 4)%nat ->
                     failure (open_file SetupDatabase.empty_tables oracle)
                       (j + calls (reset entry)) = None).
  { intros j Hj. cbn [reset entry calls]. rewrite Nat.add_0_r.
    apply open_empty_first_calls; assumption. }
  split.
  - intro Hb. rewrite get_customer_eq.
    rewrite (try_block_not_found _ cid (reset entry)); auto.
  - intro Hv. rewrite get_customer_eq.
    rewrite (try_block_surrogate _ cid (reset entry)); [reflexivity | | exact Hv].
    intros j Hj. apply Hcalls. lia.
Qed.

Lemma fetch_after_failed_setup_witness :
  let db :=
    open_file
      (SetupDatabase.file
         (snd (SetupDatabase.main
                 (fun k => if Nat.eqb k 21 then Some "disk I/O error" else None)
                 (SetupDatabase.start (SetupDatabase.file_of Seed.db)))))
      (fun _ => None) in
  get_customer (L := uncoerced) db (ObjStr "CUST001") entry =
  (Ok None,
   {| calls := 4; conn := Some Closed;
      stdout := [not_found_line (ObjStr "CUST001")] |}) /\
  get_customer (L := uncoerced) db (ObjStr lone_surrogate) entry =
  (Raise UnicodeEncodeError,
   {| calls := 3; conn := Some Closed; stdout := [] |}).
Proof.
  intro db.
  assert (H : forall cid,
             (bindable cid = true ->
              get_customer (L := uncoerced) db (ObjStr cid) entry =
              (Ok None,
               {| calls := 4; conn := Some Closed;
                  stdout := [not_found_line (ObjStr cid)] |})) /\
             (Utf8.valid cid = false ->
              get_customer (L := uncoerced) db (ObjStr cid) entry =
              (Raise UnicodeEncodeError,
               {| calls := 3; conn := Some Closed; stdout := [] |}))).
  { intro cid.
    apply (fetch_after_failed_setup uncoerced
             (fun k => if Nat.eqb k 21 then Some "disk I/O error" else None)
             (fun _ => None) (SetupDatabase.file_of Seed.db) 21 "disk I/O error").
    - lia.
    - intros j Hj. destruct (Nat.eqb j 21) eqn:E; [| reflexivity].
      apply Nat.eqb_eq in E. lia.
    - reflexivity.
    - reflexivity. }
  split.
  - apply (proj1 (H "CUST001")). reflexivity.
  - apply (proj2 (H lone_surrogate)). reflexivity.
Defined.

(** X10.  On a file without the table [customers] (the script was never
    run, or its first CREATE failed) a fetch whose first three calls
    succeed returns [None] for every identifier, after printing the error
    line for [no such table: customers], and closes the connection. *)
Theorem fetch_without_tables :
  forall (L : Library) (d : SetupDatabase.DbFile)
         (oracle : nat -> option string) (cid : string),
    SetupDatabase.file_customers d = None ->
    (forall j, (j < 3)%nat -> oracle j = None) ->
    get_customer (open_file d oracle) (ObjStr cid) entry =
    (Ok None,
     {| calls := 3; conn := Some Closed;
        stdout := [database_error_line "no such table: customers"] |}).
Proof.
  intros L d oracle cid Hd Ho.
  pose proof (Ho 0%nat ltac:(lia)) as H0.
  pose proof (Ho 1%nat ltac:(lia)) as H1.
  pose proof (Ho 2%nat ltac:(lia)) as H2.
  rewrite get_customer_eq.
  unfold try_block, connect, execute, fetchone, bind, store_call, set_conn,
    lift, ret, print, open_file, reset, entry.
  cbn [calls conn stdout failure].
  rewrite H0. cbn [Nat.eqb Nat.leb andb calls conn stdout].
  rewrite H1. cbn [Nat.eqb Nat.leb andb calls conn stdout].
  rewrite H2. cbn [Nat.eqb Nat.leb andb SetupDatabase.table_exists].
  rewrite Hd. reflexivity.
Qed.

(** A new file, in which nothing has been created. *)
Lemma fetch_without_tables_witness :
  get_customer (L := uncoerced)
    (open_file
       {| SetupDatabase.file_customers := None;
          SetupDatabase.file_products := None;
          SetupDatabase.file_purchases := None;
          SetupDatabase.file_purchase_items := None |}
       (fun _ => None))
    (ObjStr "CUST001") entry =
  (Ok None,
   {| calls := 3; conn := Some Closed;
      stdout := [database_error_line "no such table: customers"] |}).
Proof.
  apply (fetch_without_tables uncoerced); [reflexivity | intros; reflexivity].
Defined.

Lemma fetch_after_setup_witness :
  let db :=
    open_file
      (SetupDatabase.file
         (snd (SetupDatabase.main (fun _ => None)
                 (SetupDatabase.start (SetupDatabase.file_of db_bad_total)))))
      (fun _ => None) in
  fst (get_customer (L := uncoerced) db (ObjStr "CUST001") entry) =
    Raise JSONDecodeError /\
  fst (get_customer (L := uncoerced) db (ObjStr "CUST002") entry) = Ok None /\
  fst (get_customer (L := uncoerced) db (ObjStr lone_surrogate) entry) =
    Raise UnicodeEncodeError.
Proof.
  intro db.
  assert (H : forall cid,
             (bindable cid = true ->
              fst (get_customer (L := uncoerced) db (ObjStr cid) entry) =
              if String.eqb cid "CUST001" then Raise JSONDecodeError else Ok None) /\
             (Utf8.valid cid = false ->
              fst (get_customer (L := uncoerced) db (ObjStr cid) entry) =
              Raise UnicodeEncodeError)).
  { intro cid.
    apply (fetch_after_setup uncoerced (fun _ => None) (fun _ => None)
             (SetupDatabase.file_of db_bad_total) cid); intro k; reflexivity. }
  split; [| split].
  - apply (proj1 (H "CUST001")). reflexivity.
  - apply (proj1 (H "CUST002")). reflexivity.
  - apply (proj2 (H lone_surrogate)). reflexivity.
Defined.

(** ** Calling through the class, and what is printed *)

Section Calls.

Context {L : Library}.

Lemma try_block_class db f :
  exists msg, fst (try_block db ObjCustomerClass f) = Raise (SqliteError msg).
Proof.
  unfold try_block, connect, execute, fetchone, bind, store_call, set_conn,
    lift, ret.
  cbn [calls conn stdout bind_parameter].
  destruct (failure db (calls f)) as [m |]; [now exists m |].
  cbn [calls conn stdout].
  destruct (failure db (S (calls f))) as [m |]; [now exists m |].
  cbn [calls conn stdout].
  destruct (failure db (S (S (calls f)))) as [m |]; [now exists m |].
  eexists. reflexivity.
Qed.

Lemma silent_ret {A} (a : A) : silent (ret a).
Proof. intro f; reflexivity. Qed.

Lemma silent_lift {A} (r : Result A) : silent (lift r).
Proof. intro f; reflexivity. Qed.

Lemma silent_store_call db : silent (store_call db).
Proof. intro f; unfold store_call; destruct (failure db (calls f)); reflexivity. Qed.

Lemma silent_bind {A B} (m : Py A) (k : A -> Py B) :
  silent m -> (forall a, silent (k a)) -> silent (bind m k).
Proof.
  intros Hm Hk f. unfold bind. specialize (Hm f).
  destruct (m f) as [[a | e] f']; simpl in *; [rewrite Hk |]; exact Hm.
Qed.

Lemma silent_for_each {A B} (body : A -> Py B) (l : list A) :
  (forall a, silent (body a)) -> silent (for_each body l).
Proof.
  intro Hb. induction l as [| x l IH]; simpl.
  - apply silent_ret.
  - apply silent_bind; [apply Hb |]. intro y.
    apply silent_bind; [exact IH |]. intro ys. apply silent_ret.
Qed.

Lemma silent_decode_row {A} (columns : A -> list (string * SqlValue)) row :
  silent (decode_row columns row).
Proof.
  unfold decode_row. destruct (undecodable (columns row)) as [[c t] |];
    intro f; reflexivity.
Qed.

Ltac silent_step :=
  first [ apply silent_bind; [| intro ]
        | apply silent_decode_row
        | apply silent_for_each; intro
        | apply silent_ret | apply silent_lift | apply silent_store_call ].

Lemma silent_reconstruct db p row : silent (reconstruct db p row).
Proof.
  unfold reconstruct, customer_data_of, purchase_of, execute, fetchall.
  repeat silent_step.
Qed.

Lemma always_raises_bind {A B} (m : Py A) (k : A -> Py B) :
  (forall a, always_raises (k a)) -> always_raises (bind m k).
Proof.
  intros Hk f. unfold bind.
  destruct (m f) as [[a | e] f']; [apply Hk | now exists e].
Qed.

Lemma always_raises_reconstruct db p row : always_raises (reconstruct db p row).
Proof.
  unfold reconstruct.
  apply always_raises_bind; intro.
  rewrite load_cls_fails. intro f. now exists NameError.
Qed.

(** The [try] block prints the not-found line when it returns, and nothing
    when it raises. *)
Lemma try_block_prints db p f :
  (fst (try_block db p f) = Ok None /\
   stdout (snd (try_block db p f)) = (stdout f ++ [not_found_line p])%list) \/
  ((exists e, fst (try_block db p f) = Raise e) /\
   stdout (snd (try_block db p f)) = stdout f).
Proof.
  unfold try_block, connect, execute, fetchone, bind, store_call, set_conn,
    lift, ret, print.
  cbn [calls conn stdout].
  destruct (failure db (calls f)) as [m |]; [right; split; [now exists (SqliteError m) | reflexivity] |].
  cbn [calls conn stdout].
  destruct (failure db (S (calls f))) as [m |]; [right; split; [now exists (SqliteError m) | reflexivity] |].
  cbn [calls conn stdout].
  destruct (failure db (S (S (calls f)))) as [m |]; [right; split; [now exists (SqliteError m) | reflexivity] |].
  destruct (bind_parameter p) as [cid | e]; [| right; split; [now exists e | reflexivity]].
  cbn [calls conn stdout].
  destruct (failure db (S (S (S (calls f))))) as [m |]; [right; split; [now exists (SqliteError m) | reflexivity] |].
  destruct (select_customers db cid) as [| row rest].
  - left. split; reflexivity.
  - right. unfold decode_row, raise.
    destruct (undecodable (Schema.customer_columns row)) as [[c t] |];
      [split; [eexists |]; reflexivity |].
    cbn [ret]. split.
    + apply always_raises_reconstruct.
    + rewrite silent_reconstruct. reflexivity.
Qed.

End Calls.

(** X11.  Called through the class, [get_customer] never looks at a row.
    With one argument or more it raises [TypeError] and touches nothing.
    With no argument the class itself is taken for [customer_id]: the call
    returns [None], whatever the store holds, and the last line it prints
    is the error line of a [sqlite3.Error]. *)
Theorem class_call_reads_no_row :
  forall (L : Library) (db : Store) (f : Frame),
    (forall x rest, Customer_get_customer db (x :: rest) f = (Raise TypeError, f)) /\
    fst (Customer_get_customer db [] f) = Ok None /\
    (exists msg,
        last (stdout (snd (Customer_get_customer db [] f))) EmptyString =
        database_error_line msg).
Proof.
  intros L db f. split; [| split].
  - intros x rest. reflexivity.
  - unfold Customer_get_customer, call_get_customer. rewrite get_customer_eq.
    destruct (try_block_class db (reset f)) as [msg ->]. reflexivity.
  - unfold Customer_get_customer, call_get_customer. rewrite get_customer_eq.
    destruct (try_block_class db (reset f)) as [msg ->].
    exists msg. cbn [finish snd closed logged stdout]. apply last_snoc.
Qed.

(** X12.  A call of [get_customer] that returns [None] has printed exactly
    one line, the not-found line or the error line of a [sqlite3.Error]; a
    call that raises has printed nothing, and what it raises is no
    [sqlite3.Error].  There is no third outcome. *)
Theorem one_line_when_none :
  forall (L : Library) (db : Store) (customer_id : PyObj) (f : Frame),
    let out := get_customer db customer_id f in
    match fst out with
    | Ok None =>
        exists line,
          stdout (snd out) = (stdout f ++ [line])%list /\
          (line = not_found_line customer_id \/
           exists msg, line = database_error_line msg)
    | Ok (Some _) => False
    | Raise e =>
        stdout (snd out) = stdout f /\
        match e with SqliteError _ => False | _ => True end
    end.
Proof.
  intros L db p f out. subst out. rewrite get_customer_eq.
  destruct (try_block_prints db p (reset f)) as [[Hr Hs] | [[e Hr] Hs]];
    rewrite Hr.
  - cbn [finish fst snd closed stdout]. rewrite Hs.
    exists (not_found_line p). split; [reflexivity | now left].
  - destruct e; cbn [finish fst snd closed logged stdout]; rewrite Hs;
      try (split; [reflexivity | exact I]).
    exists (database_error_line msg). split; [reflexivity | right; now exists msg].
Qed.

(** ** Lines of [purchase_items] that the join drops *)

Lemma filter_none {A} (P : A -> bool) (l : list A) :
  existsb P l = false -> filter P l = [].
Proof.
  induction l as [| x l IH]; simpl; [reflexivity |].
  destruct (P x); simpl; [discriminate | exact IH].
Qed.

Lemma select_items_without_orphans (db : Store) (pid : Z) :
  select_items (without_orphans db) pid = select_items db pid.
Proof.
  unfold select_items, without_orphans; cbn [products purchase_items].
  induction (purchase_items db) as [| pi l IH]; [reflexivity |].
  cbn [filter].
  destruct (has_product db pi) eqn:Hp; cbn [filter];
    destruct (sql_eq (Schema.pi_purchase_id pi) (SqlInt pid));
    cbn [flat_map]; try (rewrite IH; reflexivity); try exact IH.
  unfold has_product in Hp. rewrite (filter_none _ _ Hp). exact IH.
Qed.

Lemma for_each_ext {A B} (b1 b2 : A -> Py B) (l : list A) f :
  (forall a f', b1 a f' = b2 a f') -> for_each b1 l f = for_each b2 l f.
Proof.
  intro H. revert f. induction l as [| x l IH]; intro f; [reflexivity |].
  cbn [for_each]. unfold bind. rewrite H.
  destruct (b2 x f) as [[y | e] f1]; [| reflexivity].
  rewrite IH. reflexivity.
Qed.

Section Orphans.

Context {L : Library}.

Lemma purchase_of_without_orphans db r f :
  purchase_of (without_orphans db) r f = purchase_of db r f.
Proof.
  unfold purchase_of, fetchall.
  change (store_call (without_orphans db)) with (store_call db).
  rewrite select_items_without_orphans. reflexivity.
Qed.

Lemma reconstruct_without_orphans db p row f :
  reconstruct (without_orphans db) p row f = reconstruct db p row f.
Proof.
  unfold reconstruct, customer_data_of.
  rewrite !bind_assoc. apply bind_ext; intros billing_address f1.
  rewrite !bind_assoc. apply bind_ext; intros garden_profile f2.
  change (execute (without_orphans db) p (select_purchases (without_orphans db)))
    with (execute db p (select_purchases db)).
  rewrite !bind_assoc. apply bind_ext; intros rows f3.
  change (fetchall (without_orphans db) Schema.purchase_columns rows)
    with (fetchall db Schema.purchase_columns rows).
  rewrite !bind_assoc. apply bind_ext; intros purchase_rows f4.
  rewrite !bind_assoc. unfold bind at 1 4.
  rewrite (for_each_ext (purchase_of (without_orphans db)) (purchase_of db));
    [reflexivity | intros; apply purchase_of_without_orphans].
Qed.

Lemma try_block_without_orphans db p f :
  try_block (without_orphans db) p f = try_block db p f.
Proof.
  unfold try_block.
  change (connect (without_orphans db)) with (connect db).
  apply bind_ext; intros _ f1.
  change (store_call (without_orphans db)) with (store_call db).
  apply bind_ext; intros _ f2.
  change (execute (without_orphans db) p (select_customers (without_orphans db)))
    with (execute db p (select_customers db)).
  apply bind_ext; intros rows f3.
  change (fetchone (without_orphans db) Schema.customer_columns rows)
    with (fetchone db Schema.customer_columns rows).
  apply bind_ext; intros [row |] f4; [| reflexivity].
  apply reconstruct_without_orphans.
Qed.

End Orphans.

(** X13.  A line of [purchase_items] whose [product_id] names no row of
    [products] is invisible to [get_customer]: the inner join of the item
    query drops it, so the call has the same outcome (result or exception,
    printed lines, store calls, connection) on the store with and without
    such lines. *)
Theorem orphan_lines_are_invisible :
  forall (L : Library) (db : Store) (customer_id : PyObj) (f : Frame),
    get_customer (without_orphans db) customer_id f =
    get_customer db customer_id f.
Proof.
  intros L db p f. rewrite !get_customer_eq.
  rewrite try_block_without_orphans. reflexivity.
Qed.

(** ** How many store calls a fetch makes *)

Lemma costs_ret {A} (a : A) : costs 0 (fun a' => a' = a) (ret a).
Proof.
  intro f. split; [simpl; lia |]. intros a' H. now inversion H.
Qed.

Lemma costs_lift {A} (r : Result A) : costs 0 (fun _ => True) (lift r).
Proof. intro f. split; [simpl; lia | trivial]. Qed.

Lemma costs_store_call db : costs 1 (fun _ => True) (store_call db).
Proof.
  intro f. split; [| trivial].
  unfold store_call. destruct (failure db (calls f)); simpl; lia.
Qed.

Lemma costs_weaken {A} (n n' : nat) (post post' : A -> Prop) (m : Py A) :
  (n <= n')%nat -> (forall a, post a -> post' a) ->
  costs n post m -> costs n' post' m.
Proof.
  intros Hn Hp Hm f. destruct (Hm f) as [Hc Ha]. split; [lia | auto].
Qed.

Lemma costs_bind {A B} (n n' : nat) (post : A -> Prop) (post' : B -> Prop)
    (m : Py A) (k : A -> Py B) :
  costs n post m -> (forall a, post a -> costs n' post' (k a)) ->
  costs (n + n') post' (bind m k).
Proof.
  intros Hm Hk f. unfold bind. destruct (Hm f) as [Hc Ha].
  destruct (m f) as [[a | e] f1]; simpl in *.
  - destruct (Hk a (Ha a eq_refl) f1) as [Hc' Ha']. split; [lia | exact Ha'].
  - split; [lia | discriminate].
Qed.

Lemma costs_for_each {A B} (n : nat) (body : A -> Py B) (l : list A) :
  (forall a, costs n (fun _ => True) (body a)) ->
  costs (n * List.length l) (fun _ => True) (for_each body l).
Proof.
  intro Hb. induction l as [| x l IH].
  - simpl. replace (n * 0)%nat with 0%nat by lia.
    apply (costs_weaken 0 0 (fun a' => a' = [])); [lia | trivial | apply costs_ret].
  - cbn [for_each List.length].
    apply (costs_weaken (n + (n * List.length l + 0)) _ (fun _ => True) _);
      [lia | trivial |].
    apply (costs_bind n _ (fun _ => True) _); [apply Hb |]. intros y _.
    apply (costs_bind _ 0 (fun _ => True) _); [exact IH |]. intros ys _.
    apply (costs_weaken 0 0 (fun a' => a' = (y :: ys)%list)); [lia | trivial | apply costs_ret].
Qed.

Section Cost.

Context {L : Library}.

Lemma costs_execute {A} db cid (select : string -> list A) :
  costs 1 (fun rows => rows = select cid) (execute db (ObjStr cid) select).
Proof.
  unfold execute.
  apply (costs_bind 1 0 (fun _ => True)); [apply costs_store_call |]. intros _ _.
  apply (costs_bind 0 0 (fun s => s = cid)).
  - intro f. split; [simpl; lia |]. intros s H. cbn [lift fst] in H.
    apply bind_parameter_ok in H. now inversion H.
  - intros s ->. apply costs_ret.
Qed.

Lemma costs_decode_row {A} (columns : A -> list (string * SqlValue)) row :
  costs 0 (fun row' => row' = row) (decode_row columns row).
Proof.
  unfold decode_row. destruct (undecodable (columns row)) as [[c t] |].
  - intro f. split; [simpl; lia | discriminate].
  - apply costs_ret.
Qed.

Lemma costs_decode_rows {A} (columns : A -> list (string * SqlValue)) rows :
  costs 0 (fun rows' => rows' = rows) (for_each (decode_row columns) rows).
Proof.
  induction rows as [| r rows IH]; cbn [for_each].
  - apply costs_ret.
  - apply (costs_bind 0 0 (fun row' => row' = r)); [apply costs_decode_row |].
    intros r' ->.
    apply (costs_bind 0 0 (fun rows' => rows' = rows)); [exact IH |].
    intros rows' ->. apply costs_ret.
Qed.

Lemma costs_fetchall {A} db columns (rows : list A) :
  costs 1 (fun rows' => rows' = rows) (fetchall db columns rows).
Proof.
  unfold fetchall.
  apply (costs_bind 1 0 (fun _ => True)); [apply costs_store_call |]. intros _ _.
  apply costs_decode_rows.
Qed.

Lemma costs_fetchone {A} db columns (rows : list A) :
  costs 1 (fun _ => True) (fetchone db columns rows).
Proof.
  unfold fetchone.
  apply (costs_bind 1 0 (fun _ => True)); [apply costs_store_call |]. intros _ _.
  destruct rows as [| r rows].
  - eapply costs_weaken; [| | apply costs_ret]; [lia | trivial].
  - apply (costs_bind 0 0 (fun _ => True));
      [eapply costs_weaken; [| | apply costs_decode_row]; [lia | trivial] |].
    intros r' _. eapply costs_weaken; [| | apply costs_ret]; [lia | trivial].
Qed.

Lemma costs_purchase_of db r : costs 2 (fun _ => True) (purchase_of db r).
Proof.
  unfold purchase_of.
  apply (costs_bind 1 1 (fun _ => True)); [apply costs_store_call |]. intros _ _.
  apply (costs_weaken (1 + (0 + 0)) _ (fun _ => True)); [lia | trivial |].
  apply (costs_bind 1 _ (fun _ => True));
    [eapply costs_weaken; [| | apply costs_fetchall]; [lia | trivial] |].
  intros rows _.
  apply (costs_bind 0 0 (fun _ => True)); [apply costs_lift |]. intros items _.
  apply costs_lift.
Qed.

Lemma costs_customer_data_of db cid row :
  costs (2 + 2 * List.length (select_purchases db cid)) (fun _ => True)
    (customer_data_of db (ObjStr cid) row).
Proof.
  unfold customer_data_of.
  apply (costs_weaken
           (0 + (0 + (1 + (1 + (2 * List.length (select_purchases db cid) + 0)))))
           _ (fun _ => True)); [lia | trivial |].
  apply (costs_bind 0 _ (fun _ => True)); [apply costs_lift |]. intros ba _.
  apply (costs_bind 0 _ (fun _ => True)); [apply costs_lift |]. intros gp _.
  apply (costs_bind 1 _ (fun rows => rows = select_purchases db cid));
    [apply costs_execute |]. intros rows ->.
  apply (costs_bind 1 _ (fun rows => rows = select_purchases db cid));
    [apply costs_fetchall |]. intros rows ->.
  apply (costs_bind _ 0 (fun _ => True));
    [apply costs_for_each; intro; apply costs_purchase_of |]. intros h _.
  eapply costs_weaken; [| | apply costs_ret]; [lia | trivial].
Qed.

Lemma costs_reconstruct db cid row :
  costs (2 + 2 * List.length (select_purchases db cid)) (fun _ => True)
    (reconstruct db (ObjStr cid) row).
Proof.
  unfold reconstruct.
  apply (costs_weaken (2 + 2 * List.length (select_purchases db cid) + 0)
           _ (fun _ => True)); [lia | trivial |].
  apply (costs_bind _ 0 (fun _ => True)); [apply costs_customer_data_of |].
  intros kw _.
  apply (costs_bind 0 0 (fun _ => True)); [apply costs_lift |]. intros c _.
  apply (costs_bind 0 0 (fun _ => True)); [apply costs_lift |]. intros c' _.
  eapply costs_weaken; [| | apply costs_ret]; [lia | trivial].
Qed.

(** The [try] block of a call with a string: the call of
    [sqlite3.connect] is always made. *)
Lemma try_block_calls db cid f :
  (calls f + 1 <= calls (snd (try_block db (ObjStr cid) f))
   <= calls f + 6 + 2 * List.length (select_purchases db cid))%nat.
Proof.
  unfold try_block.
  match goal with |- context [bind (connect db) ?k f] => set (rest := k) end.
  unfold bind.
  assert (Hconn : forall r f1, connect db f = (r, f1) -> calls f1 = S (calls f)).
  { unfold connect, bind, store_call, set_conn. intros r f1.
    destruct (failure db (calls f)); intro H; inversion H; reflexivity. }
  destruct (connect db f) as [[[] | e] f1] eqn:Hc;
    pose proof (Hconn _ _ eq_refl) as H1; cbn [snd]; [| rewrite H1; lia].
  assert (Hrest : costs (1 + (1 + (1 + (2 + 2 * List.length (select_purchases db cid)))))
                    (fun _ => True) (rest tt)).
  { subst rest. cbv beta. apply (costs_bind 1 _ (fun _ => True)); [apply costs_store_call |]. intros _ _.
    apply (costs_bind 1 _ (fun _ => True));
      [eapply costs_weaken; [| | apply costs_execute]; [lia | trivial] |].
    intros rows _.
    apply (costs_bind 1 _ (fun _ => True)); [apply costs_fetchone |].
    intros [row |] _.
    - apply costs_reconstruct.
    - intro f'. split; [simpl; lia | trivial]. }
  destruct (Hrest f1) as [Hb _]. lia.
Qed.

End Cost.

(** X14.  One call of [get_customer] with a string makes at most
    [6 + 2 n] store calls (connect, cursor, a statement and a fetch for the
    customer and for the purchases, a statement and a fetch per purchase),
    where [n] is the number of rows of [purchases] for that customer;
    closing the connection is not counted.  It makes at least one, the
    call of [sqlite3.connect]. *)
Theorem get_customer_call_bound :
  forall (L : Library) (db : Store) (cid : string) (f : Frame),
    let after := calls (snd (get_customer db (ObjStr cid) f)) in
    (calls f + 1 <= after)%nat /\
    (after <= calls f + 6 + 2 * List.length (select_purchases db cid))%nat.
Proof.
  intros L db cid f after. subst after. rewrite get_customer_eq.
  assert (Hfin : forall (r : Result (option Customer.t)) f1,
             calls (snd (finish r f1)) = calls f1).
  { intros [r | []] f1; reflexivity. }
  rewrite Hfin.
  pose proof (try_block_calls db cid (reset f)) as H.
  cbn [reset calls] in H. lia.
Qed.
